(** * Stripe entities: the descriptor [StripeGraphics] and its geometry updaters

    A shallow embedding of [Source/DataSources/StripeGraphics.js] and
    [Source/DataSources/StripeGeometryUpdater.js].

    JavaScript objects are records, [undefined] is [None], numbers are IEEE
    doubles, a thrown exception is the left injection of a sum, and the
    objects a method mutates in place are threaded through a small
    state-and-exception monad.  What the two files import from modules that
    are not part of the sources is either an interface (a type class: the
    theorems hold for every implementation of it) or, for the small
    helpers, a definition whose comment says what it was modelled from. *)

From Stdlib Require Import List String Ascii Bool Arith ZArith Lia.
From Stdlib Require Import Floats.PrimFloat.
Import ListNotations.
Open Scope string_scope.

Set Implicit Arguments.

(** ** JavaScript values *)

(** A JavaScript number. *)
Definition number : Set := float.

(** The values a height can take once it has been resolved against its
    height reference: [undefined], a number, or a string (the updater
    compares the resolved extrusion with a sentinel by [===]). *)
Inductive jsval : Set :=
| JUndefined
| JNumber (n : number)
| JString (s : string).

(** [a === b] on [jsval]: IEEE equality on numbers (so [NaN !== NaN]). *)
Definition strict_equals (a b : jsval) : bool :=
  match a, b with
  | JUndefined, JUndefined => true
  | JNumber x, JNumber y => PrimFloat.eqb x y
  | JString s, JString t => String.eqb s t
  | _, _ => false
  end.

(** Modelled from the spec: [defined(value)] of [Core/defined.js], which is
    not among the sources: a value is defined unless it was left unset. *)
Definition defined {A : Type} (value : option A) : bool :=
  match value with
  | Some _ => true
  | None => false
  end.

(** Modelled from the spec: [defaultValue(a, b)] of [Core/defaultValue.js],
    which is not among the sources ("defaults applied when unset"): the
    first argument when it is defined, the second otherwise. *)
Definition defaultValue {A : Type} (a b : option A) : option A :=
  match a with
  | Some _ => a
  | None => b
  end.

(** Truthiness and [a && b] on values that are a boolean or [undefined]:
    [&&] yields its left operand when that is falsy, its right operand
    otherwise. *)
Definition truthy (v : option bool) : bool :=
  match v with
  | Some true => true
  | _ => false
  end.

Definition js_and (a b : option bool) : option bool :=
  if truthy a then b else a.

(** ** Exceptions and the two monads *)

Inductive exception : Set :=
| DeveloperError (message : string)
| TypeError (message : string)
| Error (message : string).

(** A computation that reads but does not write. *)
Definition completion (A : Type) : Type := (exception + A)%type.

Definition completion_bind {A B : Type} (c : completion A) (k : A -> completion B) : completion B :=
  match c with
  | inl e => inl e
  | inr a => k a
  end.

(** A method call on an object [S] that it may mutate: the final state is
    returned also when the call throws, so that what a failed call left
    behind can be observed. *)
Definition M (S A : Type) : Type := S -> completion A * S.

Definition ret {S A : Type} (a : A) : M S A := fun s => (inr a, s).

Definition bind {S A B : Type} (c : M S A) (k : A -> M S B) : M S B :=
  fun s =>
    match c s with
    | (inl e, s') => (inl e, s')
    | (inr a, s') => k a s'
    end.

Definition throw {S A : Type} (e : exception) : M S A := fun s => (inl e, s).

Definition modify {S : Type} (f : S -> S) : M S unit := fun s => (inr tt, f s).

Definition lift {S A : Type} (c : completion A) : M S A := fun s => (c, s).

(** [object.name] on an object that may be [undefined]: reading a member of
    [undefined] throws a [TypeError]. *)
Definition member {A : Type} (object : option A) (name : string) : completion A :=
  match object with
  | Some o => inr o
  | None => inl (TypeError ("Cannot read properties of undefined (reading '" ++ name ++ "')"))
  end.

Declare Scope js_scope.
Delimit Scope js_scope with js.
Notation "x <- c ;; k" := (bind c (fun x => k))
  (at level 61, c at next level, right associativity) : js_scope.
Notation "c ;; k" := (bind c (fun _ => k))
  (at level 61, right associativity) : js_scope.
Notation "'try' x <- c ;; k" := (completion_bind c (fun x => k))
  (at level 61, x name, c at next level, right associativity) : js_scope.

(** ** Core data *)

(** Modelled from the spec: an instant of simulation time, [JulianDate] of
    [Core/JulianDate.js], which is not among the sources.  The updater never
    looks inside a time; it hands it to the samplers and to the entity. *)
Record JulianDate : Set := {
  dayNumber : number;
  secondsOfDay : number
}.

Module HeightReference.
Inductive t : Set := NONE | CLAMP_TO_GROUND | RELATIVE_TO_GROUND.
End HeightReference.

Module GeometryOffsetAttribute.
Inductive t : Set := NONE | TOP | ALL.
End GeometryOffsetAttribute.

Module CornerType.
Inductive t : Set := ROUNDED | MITERED | BEVELED.
End CornerType.

Module ShadowMode.
Inductive t : Set := DISABLED | ENABLED | CAST_ONLY | RECEIVE_ONLY.
End ShadowMode.

Module ClassificationType.
Inductive t : Set := TERRAIN | CESIUM_3D_TILE | BOTH.
End ClassificationType.

Module Cartesian3.
Record t : Set := { x : number; y : number; z : number }.

Definition ZERO : t := {| x := 0%float; y := 0%float; z := 0%float |}.

(** Modelled from the spec: [Cartesian3.clone(cartesian, result)] of
    [Core/Cartesian3.js], which is not among the sources ("a clone of the
    element"): nothing for an undefined argument, otherwise a point with
    the same three coordinates (written into [result] when one is given,
    which a value cannot tell from a fresh point). *)
Definition clone (cartesian : option t) (result : option t) : option t :=
  match cartesian with
  | None => None
  | Some c => Some {| x := x c; y := y c; z := z c |}
  end.
End Cartesian3.

Module Color.
Record t : Set := { red : number; green : number; blue : number; alpha : number }.

(** Modelled from the spec: [Color.WHITE], the "default (opaque white)". *)
Definition WHITE : t := {| red := 1%float; green := 1%float; blue := 1%float; alpha := 1%float |}.
End Color.

Module Rectangle.
Record t : Set := { west : number; south : number; east : number; north : number }.
End Rectangle.

Module DistanceDisplayCondition.
Record t : Set := { near : number; far : number }.
End DistanceDisplayCondition.

Module VertexFormat.
(** The two formats the updater chooses between:
    [PerInstanceColorAppearance.VERTEX_FORMAT] and
    [MaterialAppearance.MaterialSupport.TEXTURED.vertexFormat]. *)
Inductive t : Set :=
| PerInstanceColorAppearance_VERTEX_FORMAT
| MaterialSupport_TEXTURED_vertexFormat.
End VertexFormat.

(** ** Properties: time-indexed value sources *)

(** Modelled from the spec: the [Property] interface of
    [DataSources/Property.js], which is not among the sources: "time-indexed
    value source; reports whether a bound value is constant over time".
    Sampling may yield [undefined].  A sampler that fails "propagates to the
    caller" through whichever method sampled; the methods are followed here
    on the samples they obtain, so that what is stated of a run is stated of
    a run in which every sample was obtained. *)
Record Property (A : Type) : Type := {
  isConstant : bool;
  getValue : JulianDate -> option A
}.

Module MaterialProperty.
(** A material is a property with a class; the updater tests the class with
    [instanceof ColorMaterialProperty] and, for that class, reads the
    [color] sub-property. *)
Record t : Type := {
  isConstant : bool;
  instanceof_ColorMaterialProperty : bool;
  color : option (Property Color.t)
}.
End MaterialProperty.

Module Property.
(** Whatever has an [isConstant] member. *)
Class Interface (P : Type) : Type := member_isConstant : P -> bool.

#[global]
Instance Interface_Property (A : Type) : Interface (Property A) := @isConstant A.

#[global]
Instance Interface_MaterialProperty : Interface MaterialProperty.t := MaterialProperty.isConstant.

(** Modelled from the spec: the static helpers [Property.isConstant],
    [Property.getValueOrUndefined] and [Property.getValueOrDefault] of
    [DataSources/Property.js], which is not among the sources
    ("[.isConstant(property) -> bool]", "[.getValueOrUndefined(property,
    time) -> optional T]", "[.getValueOrDefault(property, time, default,
    scratch) -> T]"): a property that is not there never changes and
    samples to nothing, or to the default. *)
Definition isConstant {P : Type} `{Interface P} (property : option P) : bool :=
  match property with
  | None => true
  | Some p => member_isConstant p
  end.

(** The property changes over time. *)
Definition non_constant {P : Type} `{Interface P} (property : option P) : Prop :=
  isConstant property = false.

Definition getValueOrUndefined {A : Type} (property : option (Property A)) (time : JulianDate) : option A :=
  match property with
  | None => None
  | Some p => getValue p time
  end.

Definition getValueOrDefault {A : Type} (property : option (Property A)) (time : JulianDate) (valueDefault : A) : A :=
  match property with
  | None => valueDefault
  | Some p =>
      match getValue p time with
      | Some v => v
      | None => valueDefault
      end
  end.
End Property.

(** ** StripeGraphics.js *)

Module StripeGraphics.
(** The descriptor: each field is a property or [undefined]. *)
Record t : Type := {
  show : option (Property bool);
  positions : option (Property (list Cartesian3.t));
  width : option (Property number);
  height : option (Property number);
  heightReference : option (Property HeightReference.t);
  extrudedHeight : option (Property number);
  extrudedHeightReference : option (Property HeightReference.t);
  cornerType : option (Property CornerType.t);
  granularity : option (Property number);
  fill : option (Property bool);
  material : option (MaterialProperty.t);
  outline : option (Property bool);
  outlineColor : option (Property Color.t);
  outlineWidth : option (Property number);
  shadows : option (Property ShadowMode.t);
  distanceDisplayCondition : option (Property DistanceDisplayCondition.t);
  classificationType : option (Property ClassificationType.t);
  zIndex : option (Property number)
}.

(** [g.f = v] for each field [f]. *)
Definition set_show (v : option (Property bool)) (g : t) : t :=
  {| show := v; positions := positions g; width := width g; height := height g;
     heightReference := heightReference g; extrudedHeight := extrudedHeight g;
     extrudedHeightReference := extrudedHeightReference g; cornerType := cornerType g;
     granularity := granularity g; fill := fill g; material := material g; outline := outline g;
     outlineColor := outlineColor g; outlineWidth := outlineWidth g; shadows := shadows g;
     distanceDisplayCondition := distanceDisplayCondition g;
     classificationType := classificationType g; zIndex := zIndex g |}.

Definition set_positions (v : option (Property (list Cartesian3.t))) (g : t) : t :=
  {| show := show g; positions := v; width := width g; height := height g;
     heightReference := heightReference g; extrudedHeight := extrudedHeight g;
     extrudedHeightReference := extrudedHeightReference g; cornerType := cornerType g;
     granularity := granularity g; fill := fill g; material := material g; outline := outline g;
     outlineColor := outlineColor g; outlineWidth := outlineWidth g; shadows := shadows g;
     distanceDisplayCondition := distanceDisplayCondition g;
     classificationType := classificationType g; zIndex := zIndex g |}.

Definition set_width (v : option (Property number)) (g : t) : t :=
  {| show := show g; positions := positions g; width := v; height := height g;
     heightReference := heightReference g; extrudedHeight := extrudedHeight g;
     extrudedHeightReference := extrudedHeightReference g; cornerType := cornerType g;
     granularity := granularity g; fill := fill g; material := material g; outline := outline g;
     outlineColor := outlineColor g; outlineWidth := outlineWidth g; shadows := shadows g;
     distanceDisplayCondition := distanceDisplayCondition g;
     classificationType := classificationType g; zIndex := zIndex g |}.

Definition set_height (v : option (Property number)) (g : t) : t :=
  {| show := show g; positions := positions g; width := width g; height := v;
     heightReference := heightReference g; extrudedHeight := extrudedHeight g;
     extrudedHeightReference := extrudedHeightReference g; cornerType := cornerType g;
     granularity := granularity g; fill := fill g; material := material g; outline := outline g;
     outlineColor := outlineColor g; outlineWidth := outlineWidth g; shadows := shadows g;
     distanceDisplayCondition := distanceDisplayCondition g;
     classificationType := classificationType g; zIndex := zIndex g |}.

Definition set_heightReference (v : option (Property HeightReference.t)) (g : t) : t :=
  {| show := show g; positions := positions g; width := width g; height := height g;
     heightReference := v; extrudedHeight := extrudedHeight g;
     extrudedHeightReference := extrudedHeightReference g; cornerType := cornerType g;
     granularity := granularity g; fill := fill g; material := material g; outline := outline g;
     outlineColor := outlineColor g; outlineWidth := outlineWidth g; shadows := shadows g;
     distanceDisplayCondition := distanceDisplayCondition g;
     classificationType := classificationType g; zIndex := zIndex g |}.

Definition set_extrudedHeight (v : option (Property number)) (g : t) : t :=
  {| show := show g; positions := positions g; width := width g; height := height g;
     heightReference := heightReference g; extrudedHeight := v;
     extrudedHeightReference := extrudedHeightReference g; cornerType := cornerType g;
     granularity := granularity g; fill := fill g; material := material g; outline := outline g;
     outlineColor := outlineColor g; outlineWidth := outlineWidth g; shadows := shadows g;
     distanceDisplayCondition := distanceDisplayCondition g;
     classificationType := classificationType g; zIndex := zIndex g |}.

Definition set_extrudedHeightReference (v : option (Property HeightReference.t)) (g : t) : t :=
  {| show := show g; positions := positions g; width := width g; height := height g;
     heightReference := heightReference g; extrudedHeight := extrudedHeight g;
     extrudedHeightReference := v; cornerType := cornerType g; granularity := granularity g;
     fill := fill g; material := material g; outline := outline g; outlineColor := outlineColor g;
     outlineWidth := outlineWidth g; shadows := shadows g;
     distanceDisplayCondition := distanceDisplayCondition g;
     classificationType := classificationType g; zIndex := zIndex g |}.

Definition set_cornerType (v : option (Property CornerType.t)) (g : t) : t :=
  {| show := show g; positions := positions g; width := width g; height := height g;
     heightReference := heightReference g; extrudedHeight := extrudedHeight g;
     extrudedHeightReference := extrudedHeightReference g; cornerType := v;
     granularity := granularity g; fill := fill g; material := material g; outline := outline g;
     outlineColor := outlineColor g; outlineWidth := outlineWidth g; shadows := shadows g;
     distanceDisplayCondition := distanceDisplayCondition g;
     classificationType := classificationType g; zIndex := zIndex g |}.

Definition set_granularity (v : option (Property number)) (g : t) : t :=
  {| show := show g; positions := positions g; width := width g; height := height g;
     heightReference := heightReference g; extrudedHeight := extrudedHeight g;
     extrudedHeightReference := extrudedHeightReference g; cornerType := cornerType g;
     granularity := v; fill := fill g; material := material g; outline := outline g;
     outlineColor := outlineColor g; outlineWidth := outlineWidth g; shadows := shadows g;
     distanceDisplayCondition := distanceDisplayCondition g;
     classificationType := classificationType g; zIndex := zIndex g |}.

Definition set_fill (v : option (Property bool)) (g : t) : t :=
  {| show := show g; positions := positions g; width := width g; height := height g;
     heightReference := heightReference g; extrudedHeight := extrudedHeight g;
     extrudedHeightReference := extrudedHeightReference g; cornerType := cornerType g;
     granularity := granularity g; fill := v; material := material g; outline := outline g;
     outlineColor := outlineColor g; outlineWidth := outlineWidth g; shadows := shadows g;
     distanceDisplayCondition := distanceDisplayCondition g;
     classificationType := classificationType g; zIndex := zIndex g |}.

Definition set_material (v : option (MaterialProperty.t)) (g : t) : t :=
  {| show := show g; positions := positions g; width := width g; height := height g;
     heightReference := heightReference g; extrudedHeight := extrudedHeight g;
     extrudedHeightReference := extrudedHeightReference g; cornerType := cornerType g;
     granularity := granularity g; fill := fill g; material := v; outline := outline g;
     outlineColor := outlineColor g; outlineWidth := outlineWidth g; shadows := shadows g;
     distanceDisplayCondition := distanceDisplayCondition g;
     classificationType := classificationType g; zIndex := zIndex g |}.

Definition set_outline (v : option (Property bool)) (g : t) : t :=
  {| show := show g; positions := positions g; width := width g; height := height g;
     heightReference := heightReference g; extrudedHeight := extrudedHeight g;
     extrudedHeightReference := extrudedHeightReference g; cornerType := cornerType g;
     granularity := granularity g; fill := fill g; material := material g; outline := v;
     outlineColor := outlineColor g; outlineWidth := outlineWidth g; shadows := shadows g;
     distanceDisplayCondition := distanceDisplayCondition g;
     classificationType := classificationType g; zIndex := zIndex g |}.

Definition set_outlineColor (v : option (Property Color.t)) (g : t) : t :=
  {| show := show g; positions := positions g; width := width g; height := height g;
     heightReference := heightReference g; extrudedHeight := extrudedHeight g;
     extrudedHeightReference := extrudedHeightReference g; cornerType := cornerType g;
     granularity := granularity g; fill := fill g; material := material g; outline := outline g;
     outlineColor := v; outlineWidth := outlineWidth g; shadows := shadows g;
     distanceDisplayCondition := distanceDisplayCondition g;
     classificationType := classificationType g; zIndex := zIndex g |}.

Definition set_outlineWidth (v : option (Property number)) (g : t) : t :=
  {| show := show g; positions := positions g; width := width g; height := height g;
     heightReference := heightReference g; extrudedHeight := extrudedHeight g;
     extrudedHeightReference := extrudedHeightReference g; cornerType := cornerType g;
     granularity := granularity g; fill := fill g; material := material g; outline := outline g;
     outlineColor := outlineColor g; outlineWidth := v; shadows := shadows g;
     distanceDisplayCondition := distanceDisplayCondition g;
     classificationType := classificationType g; zIndex := zIndex g |}.

Definition set_shadows (v : option (Property ShadowMode.t)) (g : t) : t :=
  {| show := show g; positions := positions g; width := width g; height := height g;
     heightReference := heightReference g; extrudedHeight := extrudedHeight g;
     extrudedHeightReference := extrudedHeightReference g; cornerType := cornerType g;
     granularity := granularity g; fill := fill g; material := material g; outline := outline g;
     outlineColor := outlineColor g; outlineWidth := outlineWidth g; shadows := v;
     distanceDisplayCondition := distanceDisplayCondition g;
     classificationType := classificationType g; zIndex := zIndex g |}.

Definition set_distanceDisplayCondition (v : option (Property DistanceDisplayCondition.t)) (g : t) : t :=
  {| show := show g; positions := positions g; width := width g; height := height g;
     heightReference := heightReference g; extrudedHeight := extrudedHeight g;
     extrudedHeightReference := extrudedHeightReference g; cornerType := cornerType g;
     granularity := granularity g; fill := fill g; material := material g; outline := outline g;
     outlineColor := outlineColor g; outlineWidth := outlineWidth g; shadows := shadows g;
     distanceDisplayCondition := v; classificationType := classificationType g;
     zIndex := zIndex g |}.

Definition set_classificationType (v : option (Property ClassificationType.t)) (g : t) : t :=
  {| show := show g; positions := positions g; width := width g; height := height g;
     heightReference := heightReference g; extrudedHeight := extrudedHeight g;
     extrudedHeightReference := extrudedHeightReference g; cornerType := cornerType g;
     granularity := granularity g; fill := fill g; material := material g; outline := outline g;
     outlineColor := outlineColor g; outlineWidth := outlineWidth g; shadows := shadows g;
     distanceDisplayCondition := distanceDisplayCondition g; classificationType := v;
     zIndex := zIndex g |}.

Definition set_zIndex (v : option (Property number)) (g : t) : t :=
  {| show := show g; positions := positions g; width := width g; height := height g;
     heightReference := heightReference g; extrudedHeight := extrudedHeight g;
     extrudedHeightReference := extrudedHeightReference g; cornerType := cornerType g;
     granularity := granularity g; fill := fill g; material := material g; outline := outline g;
     outlineColor := outlineColor g; outlineWidth := outlineWidth g; shadows := shadows g;
     distanceDisplayCondition := distanceDisplayCondition g;
     classificationType := classificationType g; zIndex := v |}.

(** What [merge] is handed as its source ("@param {StripeGraphics}
    source"): nothing, the receiver itself ([g.merge(g)]), or another
    descriptor. *)
Inductive Source : Type :=
| undefined
| itself
| another (source : t).

(** [this.f], through the field's getter. *)
Definition read {A : Type} (field : t -> A) : M t A :=
  fun this => (inr (field this), this).

(** [source.f]; a source that is the receiver is read as the receiver
    stands at that moment. *)
Definition read_source {A : Type} (source : Source) (field : t -> option A) : M t (option A) :=
  match source with
  | undefined => throw (TypeError "Cannot read properties of undefined")
  | itself => read field
  | another s => ret (field s)
  end.

(** [this.f = v], through the field's setter.  Modelled from the spec: the
    accessors come from [createPropertyDescriptor.js], which is not among
    the sources; a descriptor is "plain time-varying configuration", and a
    value that already is a property (or [undefined]) is stored as it is.
    The change notification the setter raises is no field of the
    descriptor. *)
Definition assign {A : Type} (set : A -> t -> t) (v : A) : M t unit :=
  modify (set v).

Open Scope js_scope.

(** [this.f = defaultValue(this.f, source.f)]. *)
Definition merge_field {A : Type} (source : Source)
    (field : t -> option A) (set : option A -> t -> t) : M t unit :=
  mine <- read field ;;
  theirs <- read_source source field ;;
  assign set (defaultValue mine theirs).

Definition source_defined (source : Source) : bool :=
  match source with
  | undefined => false
  | _ => true
  end.

Definition merge (source : Source) : M t unit :=
  (if negb (source_defined source)
   then throw (DeveloperError "source is required.")
   else ret tt) ;;
  merge_field source show set_show ;;
  merge_field source positions set_positions ;;
  merge_field source width set_width ;;
  merge_field source height set_height ;;
  merge_field source heightReference set_heightReference ;;
  merge_field source extrudedHeight set_extrudedHeight ;;
  merge_field source extrudedHeightReference set_extrudedHeightReference ;;
  merge_field source cornerType set_cornerType ;;
  merge_field source granularity set_granularity ;;
  merge_field source fill set_fill ;;
  merge_field source material set_material ;;
  merge_field source outline set_outline ;;
  merge_field source outlineColor set_outlineColor ;;
  merge_field source outlineWidth set_outlineWidth ;;
  merge_field source shadows set_shadows ;;
  merge_field source distanceDisplayCondition set_distanceDisplayCondition ;;
  merge_field source classificationType set_classificationType ;;
  merge_field source zIndex set_zIndex.

Close Scope js_scope.
(** The object a defined source denotes when the receiver is [this]. *)
Definition denoted (source : Source) (this : t) : option t :=
  match source with
  | undefined => None
  | itself => Some this
  | another s => Some s
  end.

(** A field that was defined is kept; one that was not takes the source's. *)
Definition kept_or_filled {A : Type} (field : t -> option A) (before theirs after : t) : Prop :=
  (forall v, field before = Some v -> field after = Some v)
  /\ (field before = None -> field after = field theirs).

(** Every field of the descriptor is kept or filled. *)
Definition all_kept_or_filled (before theirs after : t) : Prop :=
  kept_or_filled show before theirs after
  /\ kept_or_filled positions before theirs after
  /\ kept_or_filled width before theirs after
  /\ kept_or_filled height before theirs after
  /\ kept_or_filled heightReference before theirs after
  /\ kept_or_filled extrudedHeight before theirs after
  /\ kept_or_filled extrudedHeightReference before theirs after
  /\ kept_or_filled cornerType before theirs after
  /\ kept_or_filled granularity before theirs after
  /\ kept_or_filled fill before theirs after
  /\ kept_or_filled material before theirs after
  /\ kept_or_filled outline before theirs after
  /\ kept_or_filled outlineColor before theirs after
  /\ kept_or_filled outlineWidth before theirs after
  /\ kept_or_filled shadows before theirs after
  /\ kept_or_filled distanceDisplayCondition before theirs after
  /\ kept_or_filled classificationType before theirs after
  /\ kept_or_filled zIndex before theirs after.

(** The receiver after a merge, field by field. *)
Definition merged (mine theirs : t) : t :=
  {| show := defaultValue (show mine) (show theirs);
     positions := defaultValue (positions mine) (positions theirs);
     width := defaultValue (width mine) (width theirs);
     height := defaultValue (height mine) (height theirs);
     heightReference := defaultValue (heightReference mine) (heightReference theirs);
     extrudedHeight := defaultValue (extrudedHeight mine) (extrudedHeight theirs);
     extrudedHeightReference := defaultValue (extrudedHeightReference mine) (extrudedHeightReference theirs);
     cornerType := defaultValue (cornerType mine) (cornerType theirs);
     granularity := defaultValue (granularity mine) (granularity theirs);
     fill := defaultValue (fill mine) (fill theirs);
     material := defaultValue (material mine) (material theirs);
     outline := defaultValue (outline mine) (outline theirs);
     outlineColor := defaultValue (outlineColor mine) (outlineColor theirs);
     outlineWidth := defaultValue (outlineWidth mine) (outlineWidth theirs);
     shadows := defaultValue (shadows mine) (shadows theirs);
     distanceDisplayCondition := defaultValue (distanceDisplayCondition mine) (distanceDisplayCondition theirs);
     classificationType := defaultValue (classificationType mine) (classificationType theirs);
     zIndex := defaultValue (zIndex mine) (zIndex theirs) |}.

(** An object with no field set: a descriptor as the constructor finds it,
    and [defaultValue.EMPTY_OBJECT], the frozen empty object of
    [Core/defaultValue.js]. *)
Definition unset : t :=
  {| show := None;
     positions := None;
     width := None;
     height := None;
     heightReference := None;
     extrudedHeight := None;
     extrudedHeightReference := None;
     cornerType := None;
     granularity := None;
     fill := None;
     material := None;
     outline := None;
     outlineColor := None;
     outlineWidth := None;
     shadows := None;
     distanceDisplayCondition := None;
     classificationType := None;
     zIndex := None |}.

Definition EMPTY_OBJECT : t := unset.

(** What a call that ran on an object returns when it returns that object. *)
Definition returned (run : completion unit * t) : completion t :=
  match fst run with
  | inl e => inl e
  | inr _ => inr (snd run)
  end.

(** [new StripeGraphics(options)], for options that are properties (a raw
    value would be wrapped by the setter, which is not among the sources):
    [this.merge(defaultValue(options, defaultValue.EMPTY_OBJECT))] on an
    object with no field set. *)
Definition new (options : option t) : completion t :=
  let source :=
    match defaultValue options (Some EMPTY_OBJECT) with
    | Some o => another o
    | None => undefined
    end in
  returned (merge source unset).

Open Scope js_scope.

(** [result.f = this.f].  The state is the object [result] denotes; [this]
    is read as a source, [itself] when [result] is the receiver. *)
Definition clone_field {A : Type} (this : Source)
    (field : t -> option A) (set : option A -> t -> t) : M t unit :=
  mine <- read_source this field ;;
  assign set mine.

(** The assignments of [clone], run on the object [result] denotes. *)
Definition clone_onto (this : Source) : M t unit :=
  clone_field this show set_show ;;
  clone_field this positions set_positions ;;
  clone_field this width set_width ;;
  clone_field this height set_height ;;
  clone_field this heightReference set_heightReference ;;
  clone_field this extrudedHeight set_extrudedHeight ;;
  clone_field this extrudedHeightReference set_extrudedHeightReference ;;
  clone_field this cornerType set_cornerType ;;
  clone_field this granularity set_granularity ;;
  clone_field this fill set_fill ;;
  clone_field this material set_material ;;
  clone_field this outline set_outline ;;
  clone_field this outlineColor set_outlineColor ;;
  clone_field this outlineWidth set_outlineWidth ;;
  clone_field this shadows set_shadows ;;
  clone_field this distanceDisplayCondition set_distanceDisplayCondition ;;
  clone_field this classificationType set_classificationType ;;
  clone_field this zIndex set_zIndex.

Close Scope js_scope.

(** [this.clone(result)]: the descriptor it returns.  [result] is nothing,
    the receiver itself, or another descriptor. *)
Definition clone (this : t) (result : Source) : completion t :=
  match result with
  | undefined => new (Some this)
  | itself => returned (clone_onto itself this)
  | another target => returned (clone_onto (another this) target)
  end.

End StripeGraphics.

(** ** StripeGeometryUpdater.js: the data *)

Module Entity.
Record t : Type := {
  isShowing : bool;
  isAvailable : JulianDate -> bool;
  stripe : option StripeGraphics.t
}.
End Entity.

Module StripeGeometryOptions.
(** [class StripeGeometryOptions]: the resolved options an updater owns and
    rewrites in place. *)
Record t : Type := {
  id : Entity.t;
  vertexFormat : option VertexFormat.t;
  positions : option (list Cartesian3.t);
  width : option number;
  cornerType : option CornerType.t;
  height : jsval;
  extrudedHeight : jsval;
  granularity : option number;
  offsetAttribute : option GeometryOffsetAttribute.t
}.

(** [new StripeGeometryOptions(entity)]. *)
Definition new (entity : Entity.t) : t :=
  {| id := entity; vertexFormat := None; positions := None; width := None; cornerType := None;
     height := JUndefined; extrudedHeight := JUndefined; granularity := None;
     offsetAttribute := None |}.

Definition set_vertexFormat (v : option VertexFormat.t) (o : t) : t :=
  {| id := id o; vertexFormat := v; positions := positions o; width := width o;
     cornerType := cornerType o; height := height o; extrudedHeight := extrudedHeight o;
     granularity := granularity o; offsetAttribute := offsetAttribute o |}.

Definition set_positions (v : option (list Cartesian3.t)) (o : t) : t :=
  {| id := id o; vertexFormat := vertexFormat o; positions := v; width := width o;
     cornerType := cornerType o; height := height o; extrudedHeight := extrudedHeight o;
     granularity := granularity o; offsetAttribute := offsetAttribute o |}.

Definition set_width (v : option number) (o : t) : t :=
  {| id := id o; vertexFormat := vertexFormat o; positions := positions o; width := v;
     cornerType := cornerType o; height := height o; extrudedHeight := extrudedHeight o;
     granularity := granularity o; offsetAttribute := offsetAttribute o |}.

Definition set_cornerType (v : option CornerType.t) (o : t) : t :=
  {| id := id o; vertexFormat := vertexFormat o; positions := positions o; width := width o;
     cornerType := v; height := height o; extrudedHeight := extrudedHeight o;
     granularity := granularity o; offsetAttribute := offsetAttribute o |}.

Definition set_height (v : jsval) (o : t) : t :=
  {| id := id o; vertexFormat := vertexFormat o; positions := positions o; width := width o;
     cornerType := cornerType o; height := v; extrudedHeight := extrudedHeight o;
     granularity := granularity o; offsetAttribute := offsetAttribute o |}.

Definition set_extrudedHeight (v : jsval) (o : t) : t :=
  {| id := id o; vertexFormat := vertexFormat o; positions := positions o; width := width o;
     cornerType := cornerType o; height := height o; extrudedHeight := v;
     granularity := granularity o; offsetAttribute := offsetAttribute o |}.

Definition set_granularity (v : option number) (o : t) : t :=
  {| id := id o; vertexFormat := vertexFormat o; positions := positions o; width := width o;
     cornerType := cornerType o; height := height o; extrudedHeight := extrudedHeight o;
     granularity := v; offsetAttribute := offsetAttribute o |}.

Definition set_offsetAttribute (v : option GeometryOffsetAttribute.t) (o : t) : t :=
  {| id := id o; vertexFormat := vertexFormat o; positions := positions o; width := width o;
     cornerType := cornerType o; height := height o; extrudedHeight := extrudedHeight o;
     granularity := granularity o; offsetAttribute := v |}.

End StripeGeometryOptions.

(** ** The collaborators of the updater

    [StripeGeometryUpdater.js] imports these from files that are not among
    the sources.  Each is an interface here, and nothing is assumed of an
    implementation beyond its signature. *)

Module Iso8601.
Class Static : Type := { MINIMUM_VALUE : JulianDate }.
End Iso8601.

Module GroundGeometryUpdater.
Class Static : Type := {
  CLAMP_TO_GROUND : jsval;
  computeGeometryOffsetAttribute :
    option number -> HeightReference.t -> option number -> HeightReference.t ->
    option GeometryOffsetAttribute.t;
  getGeometryHeight : option number -> HeightReference.t -> jsval;
  getGeometryExtrudedHeight : option number -> HeightReference.t -> jsval
}.
End GroundGeometryUpdater.

Module ApproximateTerrainHeights.
Record MinimumMaximumHeights : Set := {
  minimumTerrainHeight : number;
  maximumTerrainHeight : number
}.

Class Static : Type := { getMinimumMaximumHeights : Rectangle.t -> MinimumMaximumHeights }.
End ApproximateTerrainHeights.

Module StripeGeometry.
(** [new StripeGeometry(options)]: the geometry is known by the options it
    was built from. *)
Inductive t : Type := new (options : StripeGeometryOptions.t).

Class Static : Type := { computeRectangle : StripeGeometryOptions.t -> Rectangle.t }.

(** The constructor may refuse its options; which options it refuses, and
    with which exception, is its own business. *)
Class Constructor : Type := { refuses : StripeGeometryOptions.t -> option exception }.

Definition construct `{Constructor} (options : StripeGeometryOptions.t) : completion t :=
  match refuses options with
  | Some e => inl e
  | None => inr (new options)
  end.
End StripeGeometry.

Module GeometryUpdater.
(** [GeometryUpdater.prototype._isHidden], applied to a receiver of class
    [T]. *)
Class Prototype (T : Type) : Type := { _isHidden : T -> Entity.t -> StripeGraphics.t -> bool }.
End GeometryUpdater.

(** Modelled from the spec: [Check.defined(name, test)] of [Core/Check.js],
    which is not among the sources (a "precondition violation", a
    "programming error"): an undefined argument is refused with a
    [DeveloperError]. *)
Module Check.
Definition defined {A : Type} (name : string) (test : option A) : completion A :=
  match test with
  | Some v => inr v
  | None => inl (DeveloperError (name ++ " is required, actual value was undefined"))
  end.
End Check.

(** ** The world an updater runs in *)

(** A call to a collaborator, with its arguments. *)
Inductive Call : Type :=
| Called_computeGeometryOffsetAttribute
    (height : option number) (heightReference : HeightReference.t)
    (extrudedHeight : option number) (extrudedHeightReference : HeightReference.t)
| Called_getGeometryHeight (height : option number) (heightReference : HeightReference.t)
| Called_getGeometryExtrudedHeight
    (extrudedHeight : option number) (extrudedHeightReference : HeightReference.t)
| Called_computeRectangle (options : StripeGeometryOptions.t)
| Called_getMinimumMaximumHeights (rectangle : Rectangle.t).

(** The receiver of a method and the calls made to the collaborators so
    far, the latest first. *)
Record World (T : Type) : Type := {
  this : T;
  calls : list Call
}.

(** An updater owns its options as [this._options]. *)
Class Updater (T : Type) : Type := {
  _options : T -> StripeGeometryOptions.t;
  with_options : StripeGeometryOptions.t -> T -> T
}.

Section Methods.
Context {T : Type} `{Updater T}.
Context `{GroundGeometryUpdater.Static} `{ApproximateTerrainHeights.Static} `{StripeGeometry.Static}.

Definition self : M (World T) T := fun w => (inr (this w), w).

(** [options.f = v], where [options] is [this._options]. *)
Definition assign {A : Type} (set : A -> StripeGeometryOptions.t -> StripeGeometryOptions.t) (v : A) :
    M (World T) unit :=
  modify (fun w =>
    {| this := with_options (set v (_options (this w))) (this w); calls := calls w |}).

(** A call to a collaborator: the call is recorded, and the collaborator's
    result returned. *)
Definition called {A : Type} (c : Call) (v : A) : M (World T) A :=
  fun w => (inr v, {| this := this w; calls := c :: calls w |}).

Definition call_computeGeometryOffsetAttribute
    (height : option number) (heightReference : HeightReference.t)
    (extrudedHeight : option number) (extrudedHeightReference : HeightReference.t) :
    M (World T) (option GeometryOffsetAttribute.t) :=
  called
    (Called_computeGeometryOffsetAttribute height heightReference extrudedHeight extrudedHeightReference)
    (GroundGeometryUpdater.computeGeometryOffsetAttribute
       height heightReference extrudedHeight extrudedHeightReference).

Definition call_getGeometryHeight (height : option number) (heightReference : HeightReference.t) :
    M (World T) jsval :=
  called (Called_getGeometryHeight height heightReference)
    (GroundGeometryUpdater.getGeometryHeight height heightReference).

Definition call_getGeometryExtrudedHeight
    (extrudedHeight : option number) (extrudedHeightReference : HeightReference.t) :
    M (World T) jsval :=
  called (Called_getGeometryExtrudedHeight extrudedHeight extrudedHeightReference)
    (GroundGeometryUpdater.getGeometryExtrudedHeight extrudedHeight extrudedHeightReference).

Definition call_computeRectangle (options : StripeGeometryOptions.t) : M (World T) Rectangle.t :=
  called (Called_computeRectangle options) (StripeGeometry.computeRectangle options).

Definition call_getMinimumMaximumHeights (rectangle : Rectangle.t) :
    M (World T) ApproximateTerrainHeights.MinimumMaximumHeights :=
  called (Called_getMinimumMaximumHeights rectangle)
    (ApproximateTerrainHeights.getMinimumMaximumHeights rectangle).

End Methods.

(** ** Geometry instances and their attributes

    The attribute classes are not among the sources. *)

(** Modelled from the spec: the [show] attribute of an instance is a
    boolean ("[show] (bool)").  [new ShowGeometryInstanceAttribute(show)]
    takes an optional argument, [show = defaultValue(show, true)]: built
    from [undefined], the attribute shows the instance. *)
Module ShowGeometryInstanceAttribute.
Record t : Set := { value : bool }.

Definition new (show : option bool) : t :=
  {| value := match show with Some show => show | None => true end |}.
End ShowGeometryInstanceAttribute.

(** Modelled from the spec: the distance display condition is "passed
    through to instance attribute", so that an attribute is known by the
    condition it was built from.  The factory
    [DistanceDisplayConditionGeometryInstanceAttribute.fromDistanceDisplayCondition]
    is handed a sample, which may be undefined: an undefined argument is
    refused with a [DeveloperError]; which defined conditions it refuses
    besides, and with which exception, is its own business. *)
Module DistanceDisplayConditionGeometryInstanceAttribute.
Inductive t : Set := attribute (value : DistanceDisplayCondition.t).

Class Static : Type := { refuses : DistanceDisplayCondition.t -> option exception }.

Definition fromDistanceDisplayCondition `{Static}
    (distanceDisplayCondition : option DistanceDisplayCondition.t) : completion t :=
  match distanceDisplayCondition with
  | None => inl (DeveloperError "distanceDisplayCondition is required.")
  | Some condition =>
      match refuses condition with
      | Some e => inl e
      | None => inr (attribute condition)
      end
  end.
End DistanceDisplayConditionGeometryInstanceAttribute.

(** [ColorGeometryInstanceAttribute.fromColor] and
    [OffsetGeometryInstanceAttribute.fromCartesian3] are only ever handed a
    defined value by the updater; the attribute is known by that value. *)
Module ColorGeometryInstanceAttribute.
Inductive t : Set := fromColor (color : Color.t).
End ColorGeometryInstanceAttribute.

Module OffsetGeometryInstanceAttribute.
Inductive t : Set := fromCartesian3 (offset : Cartesian3.t).
End OffsetGeometryInstanceAttribute.

Module GeometryInstance.
Record Attributes : Type := {
  show : ShowGeometryInstanceAttribute.t;
  distanceDisplayCondition : DistanceDisplayConditionGeometryInstanceAttribute.t;
  offset : option OffsetGeometryInstanceAttribute.t;
  color : option ColorGeometryInstanceAttribute.t
}.

Definition set_offset (v : option OffsetGeometryInstanceAttribute.t) (a : Attributes) : Attributes :=
  {| show := show a; distanceDisplayCondition := distanceDisplayCondition a; offset := v;
     color := color a |}.

Definition set_color (v : option ColorGeometryInstanceAttribute.t) (a : Attributes) : Attributes :=
  {| show := show a; distanceDisplayCondition := distanceDisplayCondition a; offset := offset a;
     color := v |}.

Record t : Type := {
  id : Entity.t;
  geometry : StripeGeometry.t;
  attributes : Attributes
}.
End GeometryInstance.

(** [material instanceof ColorMaterialProperty]; [undefined] is an instance
    of nothing. *)
Definition instanceof_ColorMaterialProperty (material : option MaterialProperty.t) : bool :=
  match material with
  | Some m => MaterialProperty.instanceof_ColorMaterialProperty m
  | None => false
  end.

(** ** class StripeGeometryUpdater *)

Module StripeGeometryUpdater.
(** The fields of the updater (set up by the base classes) that the methods
    of [StripeGeometryUpdater.js] read or write. *)
Record t : Type := {
  _entity : Entity.t;
  _fillEnabled : bool;
  _showProperty : option (Property bool);
  _fillProperty : option (Property bool);
  _materialProperty : option MaterialProperty.t;
  _distanceDisplayConditionProperty : option (Property DistanceDisplayCondition.t);
  _terrainOffsetProperty : option (Property Cartesian3.t);
  _onTerrain : bool;
  _options : StripeGeometryOptions.t
}.

Definition set__options (o : StripeGeometryOptions.t) (u : t) : t :=
  {| _entity := _entity u; _fillEnabled := _fillEnabled u; _showProperty := _showProperty u;
     _fillProperty := _fillProperty u; _materialProperty := _materialProperty u;
     _distanceDisplayConditionProperty := _distanceDisplayConditionProperty u;
     _terrainOffsetProperty := _terrainOffsetProperty u; _onTerrain := _onTerrain u;
     _options := o |}.

#[global]
Instance Updater_t : Updater t := @Build_Updater t _options set__options.

Section Class.
Context `{Iso8601.Static} `{GroundGeometryUpdater.Static} `{ApproximateTerrainHeights.Static}.
Context `{StripeGeometry.Static} `{GeometryUpdater.Prototype t}.
Context `{StripeGeometry.Constructor} `{DistanceDisplayConditionGeometryInstanceAttribute.Static}.

Open Scope js_scope.

(** The arrow function the constructor installs as [this._isHidden]. *)
Definition _isHidden (this : t) (entity : Entity.t) (stripe : StripeGraphics.t) : bool :=
  negb (defined (StripeGraphics.positions stripe))
  || negb (defined (StripeGraphics.width stripe))
  || GeometryUpdater._isHidden this entity stripe.

(** The value handed to [new ShowGeometryInstanceAttribute(...)]: the
    conjunction [isAvailable && entity.isShowing && show(time) &&
    fill(time)] of JavaScript. *)
Definition shown (this : t) (time : JulianDate) : option bool :=
  js_and
    (js_and
       (js_and (Some (Entity.isAvailable (_entity this) time))
               (Some (Entity.isShowing (_entity this))))
       (Property.getValueOrUndefined (_showProperty this) time))
    (Property.getValueOrUndefined (_fillProperty this) time).

(** [a && b] where evaluating an operand may throw: [b] is evaluated only
    when [a] came out truthy. *)
Definition and_then (a b : M (World t) (option bool)) : M (World t) (option bool) :=
  x <- a ;; if truthy x then b else ret x.

Definition createFillGeometryInstance (time : option JulianDate) : M (World t) GeometryInstance.t :=
  time <- lift (Check.defined "time" time) ;;
  this <- self ;;
  (if negb (_fillEnabled this)
   then throw (DeveloperError "This instance does not represent a filled geometry.")
   else ret tt) ;;
  let entity := _entity this in
  let isAvailable := Entity.isAvailable entity time in
  show <-
    and_then
      (and_then
         (and_then (ret (Some isAvailable)) (ret (Some (Entity.isShowing entity))))
         (showProperty <- lift (member (_showProperty this) "getValue") ;;
          ret (getValue showProperty time)))
      (fillProperty <- lift (member (_fillProperty this) "getValue") ;;
       ret (getValue fillProperty time)) ;;
  let show := ShowGeometryInstanceAttribute.new show in
  distanceDisplayConditionProperty <-
    lift (member (_distanceDisplayConditionProperty this) "getValue") ;;
  distanceDisplayCondition <-
    lift (DistanceDisplayConditionGeometryInstanceAttribute.fromDistanceDisplayCondition
            (getValue distanceDisplayConditionProperty time)) ;;
  let attributes :=
    {| GeometryInstance.show := show;
       GeometryInstance.distanceDisplayCondition := distanceDisplayCondition;
       GeometryInstance.offset := None;
       GeometryInstance.color := None |} in
  let attributes :=
    match _materialProperty this with
    | Some material =>
        if MaterialProperty.instanceof_ColorMaterialProperty material then
          let currentColor :=
            match MaterialProperty.color material with
            | Some color =>
                if isConstant color || isAvailable then getValue color time else None
            | None => None
            end in
          let currentColor :=
            match currentColor with
            | Some c => c
            | None => Color.WHITE
            end in
          GeometryInstance.set_color
            (Some (ColorGeometryInstanceAttribute.fromColor currentColor)) attributes
        else attributes
    | None => attributes
    end in
  let attributes :=
    if defined (StripeGeometryOptions.offsetAttribute (_options this)) then
      GeometryInstance.set_offset
        (Some (OffsetGeometryInstanceAttribute.fromCartesian3
                 (Property.getValueOrDefault (_terrainOffsetProperty this) time Cartesian3.ZERO)))
        attributes
    else attributes in
  geometry <- lift (StripeGeometry.construct (_options this)) ;;
  ret {| GeometryInstance.id := entity;
         GeometryInstance.geometry := geometry;
         GeometryInstance.attributes := attributes |}.

Definition createOutlineGeometryInstance (time : option JulianDate) : M (World t) GeometryInstance.t :=
  throw (Error "outline is an unsupported function").

Definition _computeCenter (this : t) (time : JulianDate) (result : option Cartesian3.t) :
    completion (option Cartesian3.t) :=
  try stripe <- member (Entity.stripe (_entity this)) "positions" ;;
  let positions := Property.getValueOrUndefined (StripeGraphics.positions stripe) time in
  match positions with
  | None => inr None
  | Some positions =>
      if Nat.eqb (List.length positions) 0 then inr None
      else inr (Cartesian3.clone (nth_error positions (Nat.div (List.length positions) 2)) result)
  end.

Definition _isDynamic (this : t) (entity : Entity.t) (stripe : StripeGraphics.t) : completion bool :=
  try positions <- member (StripeGraphics.positions stripe) "isConstant" ;;
  inr (negb (isConstant positions)
       || negb (Property.isConstant (StripeGraphics.height stripe))
       || negb (Property.isConstant (StripeGraphics.extrudedHeight stripe))
       || negb (Property.isConstant (StripeGraphics.granularity stripe))
       || negb (Property.isConstant (StripeGraphics.width stripe))
       || negb (Property.isConstant (StripeGraphics.outlineWidth stripe))
       || negb (Property.isConstant (StripeGraphics.cornerType stripe))
       || negb (Property.isConstant (StripeGraphics.zIndex stripe))
       || (_onTerrain this
           && negb (Property.isConstant (_materialProperty this))
           && negb (instanceof_ColorMaterialProperty (_materialProperty this)))).

Definition _setStaticOptions (entity : Entity.t) (stripe : StripeGraphics.t) : M (World t) unit :=
  let heightValue :=
    Property.getValueOrUndefined (StripeGraphics.height stripe) Iso8601.MINIMUM_VALUE in
  let heightReferenceValue :=
    Property.getValueOrDefault (StripeGraphics.heightReference stripe) Iso8601.MINIMUM_VALUE
      HeightReference.NONE in
  let extrudedHeightValue :=
    Property.getValueOrUndefined (StripeGraphics.extrudedHeight stripe) Iso8601.MINIMUM_VALUE in
  let extrudedHeightReferenceValue :=
    Property.getValueOrDefault (StripeGraphics.extrudedHeightReference stripe)
      Iso8601.MINIMUM_VALUE HeightReference.NONE in
  let heightValue :=
    if defined extrudedHeightValue && negb (defined heightValue) then Some 0%float
    else heightValue in
  this <- self ;;
  assign StripeGeometryOptions.set_vertexFormat
    (Some (if instanceof_ColorMaterialProperty (_materialProperty this)
           then VertexFormat.PerInstanceColorAppearance_VERTEX_FORMAT
           else VertexFormat.MaterialSupport_TEXTURED_vertexFormat)) ;;
  positions <- lift (member (StripeGraphics.positions stripe) "getValue") ;;
  assign StripeGeometryOptions.set_positions (getValue positions Iso8601.MINIMUM_VALUE) ;;
  width <- lift (member (StripeGraphics.width stripe) "getValue") ;;
  assign StripeGeometryOptions.set_width (getValue width Iso8601.MINIMUM_VALUE) ;;
  assign StripeGeometryOptions.set_granularity
    (Property.getValueOrUndefined (StripeGraphics.granularity stripe) Iso8601.MINIMUM_VALUE) ;;
  assign StripeGeometryOptions.set_cornerType
    (Property.getValueOrUndefined (StripeGraphics.cornerType stripe) Iso8601.MINIMUM_VALUE) ;;
  offsetAttribute <-
    call_computeGeometryOffsetAttribute
      heightValue heightReferenceValue extrudedHeightValue extrudedHeightReferenceValue ;;
  assign StripeGeometryOptions.set_offsetAttribute offsetAttribute ;;
  height <- call_getGeometryHeight heightValue heightReferenceValue ;;
  assign StripeGeometryOptions.set_height height ;;
  extrudedHeightValue <-
    call_getGeometryExtrudedHeight extrudedHeightValue extrudedHeightReferenceValue ;;
  extrudedHeightValue <-
    (if strict_equals extrudedHeightValue GroundGeometryUpdater.CLAMP_TO_GROUND then
       this <- self ;;
       rectangle <- call_computeRectangle (_options this) ;;
       heights <- call_getMinimumMaximumHeights rectangle ;;
       ret (JNumber (ApproximateTerrainHeights.minimumTerrainHeight heights))
     else ret extrudedHeightValue) ;;
  assign StripeGeometryOptions.set_extrudedHeight extrudedHeightValue.

Close Scope js_scope.
End Class.
End StripeGeometryUpdater.

(** ** class DynamicStripeGeometryUpdater *)

Module DynamicGeometryUpdater.
(** [DynamicGeometryUpdater.prototype._isHidden], reached as
    [super._isHidden]. *)
Class Prototype (T : Type) : Type := {
  _isHidden : T -> Entity.t -> StripeGraphics.t -> JulianDate -> bool
}.
End DynamicGeometryUpdater.

Module DynamicStripeGeometryUpdater.
(** Modelled from the spec: the per-tick pass works by "overwriting the
    owned GeometryOptions".  The constructor hands [geometryUpdater] to the
    constructor of the base class, which is not among the sources and which
    stores it and takes over its entity and its options: [this._entity] and
    [this._options] are the very objects [geometryUpdater._entity] and
    [geometryUpdater._options], so that a field written through
    [this._options] is written in the options of the geometry updater. *)
Record t : Type := {
  _geometryUpdater : StripeGeometryUpdater.t
}.

Definition _entity (u : t) : Entity.t := StripeGeometryUpdater._entity (_geometryUpdater u).

Definition _options (u : t) : StripeGeometryOptions.t :=
  StripeGeometryUpdater._options (_geometryUpdater u).

Definition set__options (o : StripeGeometryOptions.t) (u : t) : t :=
  {| _geometryUpdater := StripeGeometryUpdater.set__options o (_geometryUpdater u) |}.

#[global]
Instance Updater_t : Updater t := @Build_Updater t _options set__options.

Section Class.
Context `{GroundGeometryUpdater.Static} `{ApproximateTerrainHeights.Static}.
Context `{StripeGeometry.Static} `{DynamicGeometryUpdater.Prototype t}.

Open Scope js_scope.

(** The arrow function the constructor installs as [this._isHidden]. *)
Definition _isHidden (this : t) (entity : Entity.t) (stripe : StripeGraphics.t) (time : JulianDate) :
    bool :=
  let options := _options this in
  negb (defined (StripeGeometryOptions.positions options))
  || negb (defined (StripeGeometryOptions.width options))
  || DynamicGeometryUpdater._isHidden this entity stripe time.

Definition _setOptions (entity : Entity.t) (stripe : StripeGraphics.t) (time : JulianDate) :
    M (World t) unit :=
  let heightValue := Property.getValueOrUndefined (StripeGraphics.height stripe) time in
  let heightReferenceValue :=
    Property.getValueOrDefault (StripeGraphics.heightReference stripe) time HeightReference.NONE in
  let extrudedHeightValue :=
    Property.getValueOrUndefined (StripeGraphics.extrudedHeight stripe) time in
  let extrudedHeightReferenceValue :=
    Property.getValueOrDefault (StripeGraphics.extrudedHeightReference stripe) time
      HeightReference.NONE in
  let heightValue :=
    if defined extrudedHeightValue && negb (defined heightValue) then Some 0%float
    else heightValue in
  assign StripeGeometryOptions.set_positions
    (Property.getValueOrUndefined (StripeGraphics.positions stripe) time) ;;
  assign StripeGeometryOptions.set_width
    (Property.getValueOrUndefined (StripeGraphics.width stripe) time) ;;
  assign StripeGeometryOptions.set_granularity
    (Property.getValueOrUndefined (StripeGraphics.granularity stripe) time) ;;
  assign StripeGeometryOptions.set_cornerType
    (Property.getValueOrUndefined (StripeGraphics.cornerType stripe) time) ;;
  offsetAttribute <-
    call_computeGeometryOffsetAttribute
      heightValue heightReferenceValue extrudedHeightValue extrudedHeightReferenceValue ;;
  assign StripeGeometryOptions.set_offsetAttribute offsetAttribute ;;
  height <- call_getGeometryHeight heightValue heightReferenceValue ;;
  assign StripeGeometryOptions.set_height height ;;
  extrudedHeightValue <-
    call_getGeometryExtrudedHeight extrudedHeightValue extrudedHeightReferenceValue ;;
  extrudedHeightValue <-
    (if strict_equals extrudedHeightValue GroundGeometryUpdater.CLAMP_TO_GROUND then
       this <- self ;;
       rectangle <- call_computeRectangle (_options this) ;;
       heights <- call_getMinimumMaximumHeights rectangle ;;
       ret (JNumber (ApproximateTerrainHeights.minimumTerrainHeight heights))
     else ret extrudedHeightValue) ;;
  assign StripeGeometryOptions.set_extrudedHeight extrudedHeightValue.

Close Scope js_scope.
End Class.
End DynamicStripeGeometryUpdater.

(** ** The resolution algorithm as the specification words it

    "Given sampled [height], [heightReference], [extrudedHeight],
    [extrudedHeightReference] at a chosen instant": (1) an extrusion with no
    base height starts at 0; (2) the offset kind comes from the four values;
    (3), (4) the two heights are resolved against their references; (5) an
    extrusion that resolved to the sentinel is replaced by the minimum
    terrain height over the shape's bounding rectangle.  The updaters are
    compared with this definition below. *)

Module Spec.
(** What one pass samples from the descriptor. *)
Record Samples : Type := {
  positions : option (list Cartesian3.t);
  width : option number;
  granularity : option number;
  cornerType : option CornerType.t;
  height : option number;
  heightReference : HeightReference.t;
  extrudedHeight : option number;
  extrudedHeightReference : HeightReference.t
}.

Definition sampleAt (stripe : StripeGraphics.t) (time : JulianDate) : Samples :=
  {| positions := Property.getValueOrUndefined (StripeGraphics.positions stripe) time;
     width := Property.getValueOrUndefined (StripeGraphics.width stripe) time;
     granularity := Property.getValueOrUndefined (StripeGraphics.granularity stripe) time;
     cornerType := Property.getValueOrUndefined (StripeGraphics.cornerType stripe) time;
     height := Property.getValueOrUndefined (StripeGraphics.height stripe) time;
     heightReference :=
       Property.getValueOrDefault (StripeGraphics.heightReference stripe) time HeightReference.NONE;
     extrudedHeight := Property.getValueOrUndefined (StripeGraphics.extrudedHeight stripe) time;
     extrudedHeightReference :=
       Property.getValueOrDefault (StripeGraphics.extrudedHeightReference stripe) time
         HeightReference.NONE |}.

Section Resolution.
Context `{GroundGeometryUpdater.Static} `{ApproximateTerrainHeights.Static}.
Context `{StripeGeometry.Static}.

(** Step 1. *)
Definition baseHeight (s : Samples) : option number :=
  match extrudedHeight s, height s with
  | Some _, None => Some 0%float
  | _, _ => height s
  end.

(** Step 2. *)
Definition offsetAttributeKind (s : Samples) : option GeometryOffsetAttribute.t :=
  GroundGeometryUpdater.computeGeometryOffsetAttribute
    (baseHeight s) (heightReference s) (extrudedHeight s) (extrudedHeightReference s).

(** Step 3. *)
Definition resolvedHeight (s : Samples) : jsval :=
  GroundGeometryUpdater.getGeometryHeight (baseHeight s) (heightReference s).

(** Step 4. *)
Definition resolvedExtrudedHeight (s : Samples) : jsval :=
  GroundGeometryUpdater.getGeometryExtrudedHeight (extrudedHeight s) (extrudedHeightReference s).

(** The options as populated before step 5: the extrusion still is the one
    the record held before the pass. *)
Definition populated (s : Samples) (o : StripeGeometryOptions.t) : StripeGeometryOptions.t :=
  {| StripeGeometryOptions.id := StripeGeometryOptions.id o;
     StripeGeometryOptions.vertexFormat := StripeGeometryOptions.vertexFormat o;
     StripeGeometryOptions.positions := positions s;
     StripeGeometryOptions.width := width s;
     StripeGeometryOptions.cornerType := cornerType s;
     StripeGeometryOptions.height := resolvedHeight s;
     StripeGeometryOptions.extrudedHeight := StripeGeometryOptions.extrudedHeight o;
     StripeGeometryOptions.granularity := granularity s;
     StripeGeometryOptions.offsetAttribute := offsetAttributeKind s |}.

(** Step 5. *)
Definition clamped (s : Samples) : bool :=
  strict_equals (resolvedExtrudedHeight s) GroundGeometryUpdater.CLAMP_TO_GROUND.

Definition boundingRectangle (s : Samples) (o : StripeGeometryOptions.t) : Rectangle.t :=
  StripeGeometry.computeRectangle (populated s o).

Definition finalExtrudedHeight (s : Samples) (o : StripeGeometryOptions.t) : jsval :=
  if clamped s then
    JNumber (ApproximateTerrainHeights.minimumTerrainHeight
               (ApproximateTerrainHeights.getMinimumMaximumHeights (boundingRectangle s o)))
  else resolvedExtrudedHeight s.

Definition resolve (s : Samples) (o : StripeGeometryOptions.t) : StripeGeometryOptions.t :=
  StripeGeometryOptions.set_extrudedHeight (finalExtrudedHeight s o) (populated s o).

(** The collaborators one pass consults, the latest first: the three
    helpers always, the rectangle and the terrain only for a clamped
    extrusion. *)
Definition consulted (s : Samples) (o : StripeGeometryOptions.t) : list Call :=
  (if clamped s then
     [Called_getMinimumMaximumHeights (boundingRectangle s o);
      Called_computeRectangle (populated s o)]
   else [])
  ++ [Called_getGeometryExtrudedHeight (extrudedHeight s) (extrudedHeightReference s);
      Called_getGeometryHeight (baseHeight s) (heightReference s);
      Called_computeGeometryOffsetAttribute
        (baseHeight s) (heightReference s) (extrudedHeight s) (extrudedHeightReference s)].

(** The bounding rectangle is computed from the outline of the shape: it
    reads neither the owner, nor the vertex format, nor the extrusion the
    record held before the pass. *)
Definition same_outline (o o' : StripeGeometryOptions.t) : Prop :=
  StripeGeometryOptions.positions o = StripeGeometryOptions.positions o'
  /\ StripeGeometryOptions.width o = StripeGeometryOptions.width o'
  /\ StripeGeometryOptions.cornerType o = StripeGeometryOptions.cornerType o'
  /\ StripeGeometryOptions.granularity o = StripeGeometryOptions.granularity o'
  /\ StripeGeometryOptions.height o = StripeGeometryOptions.height o'
  /\ StripeGeometryOptions.offsetAttribute o = StripeGeometryOptions.offsetAttribute o'.

Definition rectangle_of_outline : Prop :=
  forall o o' : StripeGeometryOptions.t,
    same_outline o o' -> StripeGeometry.computeRectangle o = StripeGeometry.computeRectangle o'.

(** "vertexFormat (derived from material kind)". *)
Definition vertexFormatOf (material : option MaterialProperty.t) : VertexFormat.t :=
  if instanceof_ColorMaterialProperty material
  then VertexFormat.PerInstanceColorAppearance_VERTEX_FORMAT
  else VertexFormat.MaterialSupport_TEXTURED_vertexFormat.

(** The base height a call hands to a helper that takes one. *)
Definition heightFed (c : Call) : option (option number) :=
  match c with
  | Called_computeGeometryOffsetAttribute height _ _ _ => Some height
  | Called_getGeometryHeight height _ => Some height
  | _ => None
  end.

(** A call that looks the terrain up, or computes the rectangle to look it
    up with. *)
Definition terrainLookup (c : Call) : bool :=
  match c with
  | Called_computeRectangle _ => true
  | Called_getMinimumMaximumHeights _ => true
  | _ => false
  end.

(** Two option records hold the same resolved height, extrusion and offset
    kind. *)
Definition same_resolution (o o' : StripeGeometryOptions.t) : Prop :=
  StripeGeometryOptions.height o = StripeGeometryOptions.height o'
  /\ StripeGeometryOptions.extrudedHeight o = StripeGeometryOptions.extrudedHeight o'
  /\ StripeGeometryOptions.offsetAttribute o = StripeGeometryOptions.offsetAttribute o'.

End Resolution.

Section Passes.
Context `{Iso8601.Static} `{GroundGeometryUpdater.Static} `{ApproximateTerrainHeights.Static}.
Context `{StripeGeometry.Static}.

(** For a descriptor that samples at [time] as it does at the epoch, the
    per-tick pass at [time] leaves the same resolved height, extrusion and
    offset kind in its options as the static pass leaves in its own. *)
Definition passes_agree (entity : Entity.t) (stripe : StripeGraphics.t) (time : JulianDate)
    (static : World StripeGeometryUpdater.t) (dynamic : World DynamicStripeGeometryUpdater.t) :
    Prop :=
  sampleAt stripe Iso8601.MINIMUM_VALUE = sampleAt stripe time ->
  same_resolution
    (StripeGeometryUpdater._options
       (this (snd (StripeGeometryUpdater._setStaticOptions entity stripe static))))
    (DynamicStripeGeometryUpdater._options
       (this (snd (DynamicStripeGeometryUpdater._setOptions entity stripe time dynamic)))).

End Passes.
End Spec.

(** ** An implementation of the collaborators, and descriptors to run on

    Used only to run the updaters on concrete inputs; the theorems below
    quantify over every implementation. *)

Module Example.
Definition epoch : JulianDate := {| dayNumber := 0%float; secondsOfDay := 0%float |}.

Definition noon : JulianDate := {| dayNumber := 2451545%float; secondsOfDay := 43200%float |}.

Definition iso8601 : Iso8601.Static := {| Iso8601.MINIMUM_VALUE := epoch |}.

Definition sentinel : jsval := JString "clamp".

(** Modelled from the spec: the helpers of [GroundGeometryUpdater.js], which
    is not among the sources: "absolute heights need no offset;
    relative-to-ground heights need offset applied at render time"; "NONE ->
    height unchanged; CLAMP_TO_GROUND -> height becomes a sentinel;
    RELATIVE_TO_GROUND -> height unchanged"; the extrusion "analogously". *)
Definition ground : GroundGeometryUpdater.Static :=
  {| GroundGeometryUpdater.CLAMP_TO_GROUND := sentinel;
     GroundGeometryUpdater.computeGeometryOffsetAttribute :=
       fun height heightReference extrudedHeight extrudedHeightReference =>
         let lifted :=
           match height, heightReference with
           | Some _, HeightReference.CLAMP_TO_GROUND => 1
           | Some _, HeightReference.RELATIVE_TO_GROUND => 1
           | _, _ => 0
           end in
         let raised :=
           match extrudedHeight, extrudedHeightReference with
           | Some _, HeightReference.RELATIVE_TO_GROUND => 1
           | _, _ => 0
           end in
         match lifted + raised with
         | 0 => None
         | 1 => Some GeometryOffsetAttribute.TOP
         | _ => Some GeometryOffsetAttribute.ALL
         end;
     GroundGeometryUpdater.getGeometryHeight :=
       fun height heightReference =>
         match height, heightReference with
         | None, _ => JUndefined
         | Some _, HeightReference.CLAMP_TO_GROUND => sentinel
         | Some h, _ => JNumber h
         end;
     GroundGeometryUpdater.getGeometryExtrudedHeight :=
       fun extrudedHeight extrudedHeightReference =>
         match extrudedHeight, extrudedHeightReference with
         | None, _ => JUndefined
         | Some _, HeightReference.CLAMP_TO_GROUND => sentinel
         | Some h, _ => JNumber h
         end |}.

(** A bounding rectangle read off the ends of the centerline, and a terrain
    that rises eastwards: its height over a rectangle runs from the
    rectangle's west to its east. *)
Definition geometry : StripeGeometry.Static :=
  {| StripeGeometry.computeRectangle :=
       fun options =>
         match StripeGeometryOptions.positions options with
         | Some (first :: rest) =>
             let last := List.last rest first in
             {| Rectangle.west := Cartesian3.x first; Rectangle.south := Cartesian3.y first;
                Rectangle.east := Cartesian3.x last; Rectangle.north := Cartesian3.y last |}
         | _ =>
             {| Rectangle.west := 0%float; Rectangle.south := 0%float;
                Rectangle.east := 0%float; Rectangle.north := 0%float |}
         end |}.

(** A constructor that wants a centerline and a width. *)
Definition construction : StripeGeometry.Constructor :=
  {| StripeGeometry.refuses :=
       fun options =>
         if defined (StripeGeometryOptions.positions options)
            && defined (StripeGeometryOptions.width options)
         then None
         else Some (DeveloperError "options.positions and options.width are required.") |}.

(** An attribute factory that wants the far distance beyond the near one. *)
Definition distance : DistanceDisplayConditionGeometryInstanceAttribute.Static :=
  {| DistanceDisplayConditionGeometryInstanceAttribute.refuses :=
       fun condition =>
         if PrimFloat.leb (DistanceDisplayCondition.far condition)
              (DistanceDisplayCondition.near condition)
         then Some (DeveloperError "far distance must be greater than near distance.")
         else None |}.

Definition terrain : ApproximateTerrainHeights.Static :=
  {| ApproximateTerrainHeights.getMinimumMaximumHeights :=
       fun rectangle =>
         {| ApproximateTerrainHeights.minimumTerrainHeight := Rectangle.west rectangle;
            ApproximateTerrainHeights.maximumTerrainHeight := Rectangle.east rectangle |} |}.

(** Modelled from the spec: the base predicate
    [GeometryUpdater.prototype._isHidden], which is not among the sources
    ("entity not showing ... or show/fill property false"). *)
Definition base (T : Type) : GeometryUpdater.Prototype T :=
  {| GeometryUpdater._isHidden :=
       fun _ entity stripe =>
         negb (Entity.isShowing entity)
         || negb (Property.getValueOrDefault (StripeGraphics.show stripe) epoch true)
         || negb (Property.getValueOrDefault (StripeGraphics.fill stripe) epoch true) |}.

(** Modelled from the spec: the base predicate
    [DynamicGeometryUpdater.prototype._isHidden], which is not among the
    sources ("entity not showing, not available at current time, or
    show/fill property false"). *)
Definition dynamicBase (T : Type) : DynamicGeometryUpdater.Prototype T :=
  {| DynamicGeometryUpdater._isHidden :=
       fun _ entity stripe time =>
         negb (Entity.isShowing entity)
         || negb (Entity.isAvailable entity time)
         || negb (Property.getValueOrDefault (StripeGraphics.show stripe) time true)
         || negb (Property.getValueOrDefault (StripeGraphics.fill stripe) time true) |}.

Definition constant {A : Type} (v : A) : Property A :=
  {| isConstant := true; getValue := fun _ => Some v |}.

(** A property with one value up to day 100 and another from then on. *)
Definition stepping {A : Type} (before after : A) : Property A :=
  {| isConstant := false;
     getValue := fun time => Some (if PrimFloat.ltb (dayNumber time) 100%float then before else after) |}.

Definition point (x y z : number) : Cartesian3.t :=
  {| Cartesian3.x := x; Cartesian3.y := y; Cartesian3.z := z |}.

Definition centerline : list Cartesian3.t :=
  [point 0%float 0%float 0%float; point 1%float 0%float 0%float; point 2%float 0%float 0%float].

(** A descriptor with nothing set. *)
Definition blank : StripeGraphics.t :=
  {| StripeGraphics.show := None; StripeGraphics.positions := None; StripeGraphics.width := None;
     StripeGraphics.height := None; StripeGraphics.heightReference := None;
     StripeGraphics.extrudedHeight := None; StripeGraphics.extrudedHeightReference := None;
     StripeGraphics.cornerType := None; StripeGraphics.granularity := None;
     StripeGraphics.fill := None; StripeGraphics.material := None; StripeGraphics.outline := None;
     StripeGraphics.outlineColor := None; StripeGraphics.outlineWidth := None;
     StripeGraphics.shadows := None; StripeGraphics.distanceDisplayCondition := None;
     StripeGraphics.classificationType := None; StripeGraphics.zIndex := None |}.

(** Three collinear points, width 2, height 0, all constant. *)
Definition flat : StripeGraphics.t :=
  StripeGraphics.set_height (Some (constant 0%float))
    (StripeGraphics.set_width (Some (constant 2%float))
       (StripeGraphics.set_positions (Some (constant centerline)) blank)).

(** The same centerline with an extrusion and no base height. *)
Definition extruded : StripeGraphics.t :=
  StripeGraphics.set_extrudedHeight (Some (constant 30%float))
    (StripeGraphics.set_width (Some (constant 2%float))
       (StripeGraphics.set_positions (Some (constant centerline)) blank)).

(** A centerline further east, with its extrusion clamped to the ground. *)
Definition eastern : list Cartesian3.t :=
  [point 7%float 1%float 0%float; point 8%float 1%float 0%float; point 9%float 1%float 0%float].

Definition clamped : StripeGraphics.t :=
  StripeGraphics.set_extrudedHeightReference (Some (constant HeightReference.CLAMP_TO_GROUND))
    (StripeGraphics.set_positions (Some (constant eastern)) extruded).

(** A base height and no centerline. *)
Definition no_centerline : StripeGraphics.t :=
  StripeGraphics.set_height (Some (constant 5%float))
    (StripeGraphics.set_width (Some (constant 2%float)) blank).

(** A width that changes on day 100. *)
Definition widening : StripeGraphics.t :=
  StripeGraphics.set_width (Some (stepping 2%float 4%float)) flat.

Definition entity (stripe : option StripeGraphics.t) : Entity.t :=
  {| Entity.isShowing := true; Entity.isAvailable := fun _ => true; Entity.stripe := stripe |}.

Definition white : MaterialProperty.t :=
  {| MaterialProperty.isConstant := true;
     MaterialProperty.instanceof_ColorMaterialProperty := true;
     MaterialProperty.color := Some (constant Color.WHITE) |}.

(** The condition under which a shape is displayed at every distance. *)
Definition everywhere : DistanceDisplayCondition.t :=
  {| DistanceDisplayCondition.near := 0%float;
     DistanceDisplayCondition.far := 0x1.fffffffffffffp+1023%float |}.

(** An updater for a shown, filled stripe, before any pass has run. *)
Definition updater (stripe : StripeGraphics.t) (fillEnabled : bool) : StripeGeometryUpdater.t :=
  {| StripeGeometryUpdater._entity := entity (Some stripe);
     StripeGeometryUpdater._fillEnabled := fillEnabled;
     StripeGeometryUpdater._showProperty := Some (constant true);
     StripeGeometryUpdater._fillProperty := Some (constant fillEnabled);
     StripeGeometryUpdater._materialProperty := Some white;
     StripeGeometryUpdater._distanceDisplayConditionProperty := Some (constant everywhere);
     StripeGeometryUpdater._terrainOffsetProperty := None;
     StripeGeometryUpdater._onTerrain := false;
     StripeGeometryUpdater._options := StripeGeometryOptions.new (entity (Some stripe)) |}.

(** The dynamic updater made from it. *)
Definition dynamicUpdater (stripe : StripeGraphics.t) : DynamicStripeGeometryUpdater.t :=
  {| DynamicStripeGeometryUpdater._geometryUpdater := updater stripe true |}.

(** The options of [flat] once resolved, and the updater that holds them. *)
Definition resolved : StripeGeometryOptions.t :=
  {| StripeGeometryOptions.id := entity (Some flat);
     StripeGeometryOptions.vertexFormat :=
       Some VertexFormat.PerInstanceColorAppearance_VERTEX_FORMAT;
     StripeGeometryOptions.positions := Some centerline;
     StripeGeometryOptions.width := Some 2%float;
     StripeGeometryOptions.cornerType := None;
     StripeGeometryOptions.height := JNumber 0%float;
     StripeGeometryOptions.extrudedHeight := JUndefined;
     StripeGeometryOptions.granularity := None;
     StripeGeometryOptions.offsetAttribute := None |}.

Definition ready : StripeGeometryUpdater.t :=
  StripeGeometryUpdater.set__options resolved (updater flat true).

(** A show property that has a value up to day 100 and none from then on,
    as a property made of intervals has outside them. *)
Definition interrupted : Property bool :=
  {| isConstant := false;
     getValue := fun time => if PrimFloat.ltb (dayNumber time) 100%float then Some true else None |}.

(** [ready], shown by [interrupted]. *)
Definition lapsing : StripeGeometryUpdater.t :=
  {| StripeGeometryUpdater._entity := StripeGeometryUpdater._entity ready;
     StripeGeometryUpdater._fillEnabled := true;
     StripeGeometryUpdater._showProperty := Some interrupted;
     StripeGeometryUpdater._fillProperty := StripeGeometryUpdater._fillProperty ready;
     StripeGeometryUpdater._materialProperty := StripeGeometryUpdater._materialProperty ready;
     StripeGeometryUpdater._distanceDisplayConditionProperty :=
       StripeGeometryUpdater._distanceDisplayConditionProperty ready;
     StripeGeometryUpdater._terrainOffsetProperty :=
       StripeGeometryUpdater._terrainOffsetProperty ready;
     StripeGeometryUpdater._onTerrain := false;
     StripeGeometryUpdater._options := resolved |}.

Definition world {T : Type} (receiver : T) : World T := {| this := receiver; calls := [] |}.

End Example.

(** * Theorems *)

Unset Implicit Arguments.

(** ** StripeGraphics.merge *)

Section Merge.
Import StripeGraphics.

Lemma kept_or_filled_defaultValue {A : Type} (field : t -> option A) (before theirs after : t) :
  field after = defaultValue (field before) (field theirs) ->
  kept_or_filled field before theirs after.
Proof.
  intros E. unfold kept_or_filled. rewrite E.
  destruct (field before) as [v|]; simpl; split; intros; congruence.
Qed.

(** A merge with a defined source returns, and each assignment stores
    [defaultValue] of the two fields as they were before the call. *)
Lemma merge_another (g s : t) : merge (another s) g = (inr tt, merged g s).
Proof. vm_compute. reflexivity. Qed.

(** The same when the source is the receiver: no assignment disturbs a
    field that a later statement reads. *)
Lemma merge_itself (g : t) : merge itself g = (inr tt, merged g g).
Proof. vm_compute. reflexivity. Qed.

Lemma merged_kept_or_filled (g theirs : t) : all_kept_or_filled g theirs (merged g theirs).
Proof.
  unfold all_kept_or_filled.
  repeat match goal with |- _ /\ _ => split end;
    apply kept_or_filled_defaultValue; reflexivity.
Qed.

Lemma merge_returns (g theirs : t) (source : Source) :
  denoted source g = Some theirs ->
  exists g', merge source g = (inr tt, g') /\ all_kept_or_filled g theirs g'.
Proof.
  intros D. exists (merged g theirs). split.
  - destruct source as [| |s]; simpl in D; try discriminate; injection D as <-.
    + apply merge_itself.
    + apply merge_another.
  - apply merged_kept_or_filled.
Qed.

Lemma merge_undefined (g : t) :
  merge undefined g = (inl (DeveloperError "source is required."), g).
Proof. reflexivity. Qed.

(** C10. For every descriptor [g] and every defined source (another
    descriptor, or [g] itself), [g.merge(source)] returns normally, leaves
    each field of [g] that was defined as it was and gives each field that
    was undefined the source's field; [g.merge(undefined)] throws a
    [DeveloperError] and leaves [g] as it was. *)
Theorem merge_fills_only_undefined_fields :
  forall (g : t) (source : Source),
    (forall theirs, denoted source g = Some theirs ->
       exists g', merge source g = (inr tt, g') /\ all_kept_or_filled g theirs g')
    /\ (source = undefined ->
        exists message, merge source g = (inl (DeveloperError message), g)).
Proof.
  intros g source. split.
  - intros theirs D. now apply merge_returns.
  - intros ->. eexists. apply merge_undefined.
Qed.

End Merge.

(** ** StripeGeometryUpdater: the predicates *)

Section Predicates.
Context `{GeometryUpdater.Prototype StripeGeometryUpdater.t}.
Import StripeGeometryUpdater.

Lemma non_constant_negb {P : Type} `{Property.Interface P} (property : option P) :
  negb (Property.isConstant property) = true <-> Property.non_constant property.
Proof. unfold Property.non_constant. apply negb_true_iff. Qed.

(** C1. For an updater and a descriptor whose [positions] is defined,
    [_isDynamic] returns a boolean, and it is [true] exactly when one of
    [positions], [height], [extrudedHeight], [granularity], [width],
    [outlineWidth], [cornerType], [zIndex] is not constant, or the shape is
    on terrain and its material is not constant and is no
    [ColorMaterialProperty]. *)
Theorem isDynamic_iff_an_input_varies :
  forall (this : t) (entity : Entity.t) (stripe : StripeGraphics.t) (positions : Property (list Cartesian3.t)),
    StripeGraphics.positions stripe = Some positions ->
    exists dynamic : bool,
      _isDynamic this entity stripe = inr dynamic
      /\ (dynamic = true <->
          Property.non_constant (StripeGraphics.positions stripe)
          \/ Property.non_constant (StripeGraphics.height stripe)
          \/ Property.non_constant (StripeGraphics.extrudedHeight stripe)
          \/ Property.non_constant (StripeGraphics.granularity stripe)
          \/ Property.non_constant (StripeGraphics.width stripe)
          \/ Property.non_constant (StripeGraphics.outlineWidth stripe)
          \/ Property.non_constant (StripeGraphics.cornerType stripe)
          \/ Property.non_constant (StripeGraphics.zIndex stripe)
          \/ (_onTerrain this = true
              /\ Property.non_constant (_materialProperty this)
              /\ instanceof_ColorMaterialProperty (_materialProperty this) = false)).
Proof.
  intros this entity stripe positions Hpositions.
  unfold _isDynamic. rewrite Hpositions. simpl.
  eexists. split; [reflexivity|].
  change (isConstant positions) with (Property.isConstant (Some positions)).
  rewrite !orb_true_iff, !andb_true_iff, !non_constant_negb, negb_true_iff.
  tauto.
Qed.

(** Without [positions] the first operand cannot be evaluated. *)
Lemma isDynamic_without_positions (this : t) (entity : Entity.t) (stripe : StripeGraphics.t) :
  StripeGraphics.positions stripe = None ->
  exists message, _isDynamic this entity stripe = inl (TypeError message).
Proof. intros E. unfold _isDynamic. rewrite E. simpl. eexists. reflexivity. Qed.

(** C5. The static updater's [_isHidden] is [true] whenever [positions] or
    [width] is undefined, whatever [show] and [fill] are; when both are
    defined it is the result of the base class's [_isHidden]. *)
Theorem isHidden_without_positions_or_width :
  forall (this : t) (entity : Entity.t) (stripe : StripeGraphics.t),
    (StripeGraphics.positions stripe = None \/ StripeGraphics.width stripe = None ->
     forall show fill : option (Property bool),
       _isHidden this entity (StripeGraphics.set_fill fill (StripeGraphics.set_show show stripe))
       = true)
    /\ (forall positions width,
          StripeGraphics.positions stripe = Some positions ->
          StripeGraphics.width stripe = Some width ->
          _isHidden this entity stripe = GeometryUpdater._isHidden this entity stripe).
Proof.
  intros this entity stripe. split.
  - intros [E|E] show fill; unfold _isHidden; simpl; rewrite E; simpl.
    + reflexivity.
    + destruct (StripeGraphics.positions stripe); reflexivity.
  - intros positions width Ep Ew. unfold _isHidden. rewrite Ep, Ew. reflexivity.
Qed.

End Predicates.

(** ** StripeGeometryUpdater: geometry instances and the center *)

Ltac fill_run :=
  unfold StripeGeometryUpdater.createFillGeometryInstance, StripeGeometryUpdater.and_then, bind, lift, ret, member, self, throw,
    DistanceDisplayConditionGeometryInstanceAttribute.fromDistanceDisplayCondition,
    StripeGeometry.construct;
  cbn.

(** The steps of a run that may throw, in their order: each operand of the
    [show] conjunction that gets evaluated, the distance display condition,
    the constructor of the geometry. *)
Ltac fill_cases entity fillEnabled showP fillP ddc options time :=
  destruct fillEnabled; cbn; [|try discriminate];
  destruct (Entity.isAvailable entity time) eqn:?, (Entity.isShowing entity) eqn:?; cbn;
  try (destruct showP as [showP|]; cbn; [|try discriminate];
       destruct (getValue showP time) as [[|]|] eqn:?; cbn;
       try (destruct fillP as [fillP|]; cbn; [|try discriminate]));
  (destruct ddc as [ddc|]; cbn; [|try discriminate]);
  (destruct (getValue ddc time) as [condition|] eqn:?; cbn; [|try discriminate]);
  (destruct (DistanceDisplayConditionGeometryInstanceAttribute.refuses condition) eqn:?; cbn;
   [try discriminate|]);
  (destruct (StripeGeometry.refuses options) eqn:?; cbn; [try discriminate|]).

Section Instances.
Import StripeGeometryUpdater.
Context `{StripeGeometry.Constructor} `{DistanceDisplayConditionGeometryInstanceAttribute.Static}.

(** C8. [createOutlineGeometryInstance] throws the same [Error] for every
    time and every state of the updater, which it leaves as it was; it
    never returns an instance. *)
Theorem createOutlineGeometryInstance_always_throws :
  forall (time : option JulianDate) (w : World t),
    createOutlineGeometryInstance time w = (inl (Error "outline is an unsupported function"), w).
Proof. intros time w. reflexivity. Qed.

(** C6. With fill disabled, [createFillGeometryInstance] throws a
    [DeveloperError] for every time, and the updater (its options
    included) is as it was before the call. *)
Theorem createFillGeometryInstance_refuses_disabled_fill :
  forall (time : option JulianDate) (w : World t),
    _fillEnabled (this w) = false ->
    exists message, createFillGeometryInstance time w = (inl (DeveloperError message), w).
Proof.
  intros time w Hfill. unfold createFillGeometryInstance.
  destruct time as [time|]; cbn.
  - rewrite Hfill. cbn. eexists. reflexivity.
  - eexists. reflexivity.
Qed.

(** For a defined time the error is the one the method itself raises. *)
Lemma createFillGeometryInstance_disabled_message (time : JulianDate) (w : World t) :
  _fillEnabled (this w) = false ->
  createFillGeometryInstance (Some time) w
  = (inl (DeveloperError "This instance does not represent a filled geometry."), w).
Proof. intros Hfill. unfold createFillGeometryInstance. cbn. rewrite Hfill. reflexivity. Qed.

(** The conjunction of JavaScript is the conjunction of booleans when the
    two sampled properties are booleans. *)
Lemma shown_booleans (this : t) (time : JulianDate) (show fill : bool) :
  Property.getValueOrUndefined (_showProperty this) time = Some show ->
  Property.getValueOrUndefined (_fillProperty this) time = Some fill ->
  shown this time
  = Some (Entity.isAvailable (_entity this) time && Entity.isShowing (_entity this) && show && fill).
Proof.
  intros Es Ef. unfold shown. rewrite Es, Ef.
  destruct (Entity.isAvailable (_entity this) time), (Entity.isShowing (_entity this)), show, fill;
    reflexivity.
Qed.

(** It is undefined exactly where an operand that gets evaluated is: the
    first two operands are booleans. *)
Lemma shown_undefined (this : t) (time : JulianDate) :
  shown this time = None
  <-> Entity.isAvailable (_entity this) time = true
      /\ Entity.isShowing (_entity this) = true
      /\ (Property.getValueOrUndefined (_showProperty this) time = None
          \/ Property.getValueOrUndefined (_showProperty this) time = Some true
              /\ Property.getValueOrUndefined (_fillProperty this) time = None).
Proof.
  unfold shown.
  destruct (Entity.isAvailable (_entity this) time), (Entity.isShowing (_entity this));
    cbn; try (split; [discriminate | intros (? & ? & _); discriminate]).
  destruct (Property.getValueOrUndefined (_showProperty this) time) as [[|]|]; cbn.
  - destruct (Property.getValueOrUndefined (_fillProperty this) time) as [fill|]; cbn.
    + split; [discriminate | intros (_ & _ & [E | (_ & E)]); discriminate E].
    + split; auto.
  - split; [discriminate | intros (_ & _ & [E | (E & _)]); discriminate E].
  - split; auto.
Qed.

(** What a call that returns has gone through. *)
Lemma createFillGeometryInstance_inversion
    (time : option JulianDate) (w w' : World t) (instance : GeometryInstance.t) :
  createFillGeometryInstance time w = (inr instance, w') ->
  exists t0,
    time = Some t0 /\ w' = w /\ _fillEnabled (this w) = true
    /\ GeometryInstance.show (GeometryInstance.attributes instance)
       = ShowGeometryInstanceAttribute.new (shown (this w) t0).
Proof.
  intros Hrun.
  destruct time as [time|]; [|discriminate Hrun].
  exists time. split; [reflexivity|].
  destruct w as [[entity fillEnabled showP fillP material ddc offsetP onTerrain options] cs].
  revert Hrun. unfold shown. fill_run.
  fill_cases entity fillEnabled showP fillP ddc options time.
  all: intros Hrun; injection Hrun as <- <-.
  all: repeat split.
  all: destruct (defined (StripeGeometryOptions.offsetAttribute options)), material as [m|];
       try destruct (MaterialProperty.instanceof_ColorMaterialProperty m); cbn.
  all: reflexivity.
Qed.

(** C7, as amended. Whenever [createFillGeometryInstance(time)] returns an
    instance, its [show] attribute is built from the conjunction of
    JavaScript [isAvailable && entity.isShowing && show(time) &&
    fill(time)]. Where the show and fill properties sample to booleans at
    [time], the attribute is the conjunction "entity available at [time]
    and entity showing and the show property sampled at [time] and the fill
    property sampled at [time]"; more generally it is the conjunction of
    JavaScript wherever that is a boolean. Where the entity is available
    and showing and the show sample is undefined, or the show sample is
    true and the fill sample is undefined, that conjunction is undefined
    and the attribute is true. *)
Theorem createFillGeometryInstance_show_is_the_conjunction :
  forall (time : JulianDate) (w w' : World t) (instance : GeometryInstance.t),
    createFillGeometryInstance (Some time) w = (inr instance, w') ->
    (forall show fill : bool,
       Property.getValueOrUndefined (_showProperty (this w)) time = Some show ->
       Property.getValueOrUndefined (_fillProperty (this w)) time = Some fill ->
       ShowGeometryInstanceAttribute.value
         (GeometryInstance.show (GeometryInstance.attributes instance))
       = Entity.isAvailable (_entity (this w)) time
         && Entity.isShowing (_entity (this w)) && show && fill)
    /\ (forall conjunction : bool,
          shown (this w) time = Some conjunction ->
          ShowGeometryInstanceAttribute.value
            (GeometryInstance.show (GeometryInstance.attributes instance))
          = conjunction)
    /\ (Entity.isAvailable (_entity (this w)) time = true ->
        Entity.isShowing (_entity (this w)) = true ->
        Property.getValueOrUndefined (_showProperty (this w)) time = None
        \/ Property.getValueOrUndefined (_showProperty (this w)) time = Some true
            /\ Property.getValueOrUndefined (_fillProperty (this w)) time = None ->
        shown (this w) time = None
        /\ ShowGeometryInstanceAttribute.value
             (GeometryInstance.show (GeometryInstance.attributes instance))
           = true).
Proof.
  intros time w w' instance Hrun.
  destruct (createFillGeometryInstance_inversion _ _ _ _ Hrun) as (t0 & Et & _ & _ & Hshow).
  assert (t0 = time) as ->.
  { destruct w as [u cs]. clear -Et. now inversion Et. }
  rewrite Hshow. split; [|split].
  - intros show fill Es Ef. rewrite (shown_booleans _ _ _ _ Es Ef). reflexivity.
  - intros conjunction ->. reflexivity.
  - intros Ha Hs Hundefined.
    assert (E : shown (this w) time = None) by (apply shown_undefined; auto).
    rewrite E. split; reflexivity.
Qed.

(** C9. [_computeCenter(time)] returns nothing when the sampled positions
    are undefined or empty; otherwise it returns the element at index
    [floor(length / 2)] of the sampled positions: one of the vertices, not
    an average. *)
Theorem computeCenter_is_the_middle_vertex :
  forall (this : t) (time : JulianDate) (result : option Cartesian3.t) (stripe : StripeGraphics.t),
    Entity.stripe (_entity this) = Some stripe ->
    (forall positions,
       Property.getValueOrUndefined (StripeGraphics.positions stripe) time = positions ->
       positions = None \/ positions = Some [] ->
       _computeCenter this time result = inr None)
    /\ (forall positions,
          Property.getValueOrUndefined (StripeGraphics.positions stripe) time = Some positions ->
          positions <> [] ->
          exists middle,
            nth_error positions (List.length positions / 2) = Some middle
            /\ _computeCenter this time result = inr (Some middle)).
Proof.
  intros this time result stripe Hstripe. unfold _computeCenter. rewrite Hstripe.
  unfold member, completion_bind. cbv beta iota. split.
  - intros positions <- [E|E]; rewrite E; reflexivity.
  - intros positions E Hne. rewrite E.
    destruct positions as [|first rest]; [contradiction|].
    destruct (nth_error (first :: rest) (List.length (first :: rest) / 2)) as [middle|] eqn:Hnth.
    + exists middle. split; [reflexivity|].
      change (Nat.eqb (List.length (first :: rest)) 0) with false. cbv iota.
      destruct middle; reflexivity.
    + apply nth_error_None in Hnth. exfalso.
      assert (List.length (first :: rest) / 2 < List.length (first :: rest))
        by (apply Nat.div_lt; cbn; lia).
      lia.
Qed.

End Instances.

(** ** The two resolution passes *)

Section Passes.
Context `{Iso8601.Static} `{GroundGeometryUpdater.Static} `{ApproximateTerrainHeights.Static}.
Context `{StripeGeometry.Static}.

Ltac run_pass :=
  cbv [bind self assign modify called call_computeGeometryOffsetAttribute call_getGeometryHeight
       call_getGeometryExtrudedHeight call_computeRectangle call_getMinimumMaximumHeights
       lift member ret this calls _options with_options
       StripeGeometryUpdater.Updater_t DynamicStripeGeometryUpdater.Updater_t].

Ltac unfold_resolution :=
  unfold Spec.resolve, Spec.consulted, Spec.finalExtrudedHeight, Spec.clamped,
    Spec.boundingRectangle, Spec.populated, Spec.resolvedExtrudedHeight, Spec.resolvedHeight,
    Spec.offsetAttributeKind;
  cbn [Spec.sampleAt Spec.extrudedHeight Spec.height Spec.heightReference
       Spec.extrudedHeightReference Spec.positions Spec.width Spec.granularity Spec.cornerType].

(** Step 1 as the code writes it. *)
Lemma baseHeight_code (s : Spec.Samples) :
  (if defined (Spec.extrudedHeight s) && negb (defined (Spec.height s)) then Some 0%float
   else Spec.height s) = Spec.baseHeight s.
Proof. unfold Spec.baseHeight. destruct (Spec.extrudedHeight s), (Spec.height s); reflexivity. Qed.

Lemma baseHeight_zero (s : Spec.Samples) (extrusion : number) :
  Spec.extrudedHeight s = Some extrusion -> Spec.height s = None ->
  Spec.baseHeight s = Some 0%float.
Proof. intros Ee Eh. unfold Spec.baseHeight. rewrite Ee, Eh. reflexivity. Qed.

(** The static pass on a descriptor with [positions] and [width] returns,
    having run the resolution algorithm on the samples taken at the epoch. *)
Lemma setStaticOptions_returns
    (entity : Entity.t) (stripe : StripeGraphics.t) (w : World StripeGeometryUpdater.t)
    (positions : Property (list Cartesian3.t)) (width : Property number) :
  StripeGraphics.positions stripe = Some positions ->
  StripeGraphics.width stripe = Some width ->
  let s := Spec.sampleAt stripe Iso8601.MINIMUM_VALUE in
  let o :=
    StripeGeometryOptions.set_vertexFormat
      (Some (Spec.vertexFormatOf (StripeGeometryUpdater._materialProperty (this w))))
      (StripeGeometryUpdater._options (this w)) in
  StripeGeometryUpdater._setStaticOptions entity stripe w
  = (inr tt,
     {| this := StripeGeometryUpdater.set__options (Spec.resolve s o) (this w);
        calls := Spec.consulted s o ++ calls w |}).
Proof.
  intros Hp Hw s o. subst s o.
  unfold StripeGeometryUpdater._setStaticOptions. rewrite Hp, Hw.
  destruct w as [u cs]. run_pass. unfold_resolution.
  rewrite <- !baseHeight_code. unfold_resolution.
  rewrite Hp, Hw. cbn [Property.getValueOrUndefined].
  destruct u as [e fe sp fp mp ddc top ot [i vf ps wd ct ht eh gr oa]].
  match goal with
  | |- context [strict_equals ?a ?b] => destruct (strict_equals a b)
  end; reflexivity.
Qed.

(** Without [positions] the static pass throws at [stripe.positions.getValue],
    after it has set the vertex format and before it consults anything. *)
Lemma setStaticOptions_without_positions
    (entity : Entity.t) (stripe : StripeGraphics.t) (w : World StripeGeometryUpdater.t) :
  StripeGraphics.positions stripe = None ->
  exists message,
    StripeGeometryUpdater._setStaticOptions entity stripe w
    = (inl (TypeError message),
       {| this :=
            StripeGeometryUpdater.set__options
              (StripeGeometryOptions.set_vertexFormat
                 (Some (Spec.vertexFormatOf (StripeGeometryUpdater._materialProperty (this w))))
                 (StripeGeometryUpdater._options (this w)))
              (this w);
          calls := calls w |}).
Proof.
  intros Hp. unfold StripeGeometryUpdater._setStaticOptions. rewrite Hp.
  destruct w as [u cs]. run_pass. eexists. reflexivity.
Qed.

(** Without [width] it throws at [stripe.width.getValue], one assignment
    later. *)
Lemma setStaticOptions_without_width
    (entity : Entity.t) (stripe : StripeGraphics.t) (w : World StripeGeometryUpdater.t)
    (positions : Property (list Cartesian3.t)) :
  StripeGraphics.positions stripe = Some positions ->
  StripeGraphics.width stripe = None ->
  exists message,
    StripeGeometryUpdater._setStaticOptions entity stripe w
    = (inl (TypeError message),
       {| this :=
            StripeGeometryUpdater.set__options
              (StripeGeometryOptions.set_positions (getValue positions Iso8601.MINIMUM_VALUE)
                 (StripeGeometryOptions.set_vertexFormat
                    (Some (Spec.vertexFormatOf (StripeGeometryUpdater._materialProperty (this w))))
                    (StripeGeometryUpdater._options (this w))))
              (this w);
          calls := calls w |}).
Proof.
  intros Hp Hw. unfold StripeGeometryUpdater._setStaticOptions. rewrite Hp, Hw.
  destruct w as [[e fe sp fp mp ddc top ot o] cs]. run_pass. eexists. reflexivity.
Qed.

(** The per-tick pass always returns, having run the resolution algorithm
    on the samples taken at [time]. *)
Lemma setOptions_returns
    (entity : Entity.t) (stripe : StripeGraphics.t) (time : JulianDate)
    (w : World DynamicStripeGeometryUpdater.t) :
  let s := Spec.sampleAt stripe time in
  let o := DynamicStripeGeometryUpdater._options (this w) in
  DynamicStripeGeometryUpdater._setOptions entity stripe time w
  = (inr tt,
     {| this := DynamicStripeGeometryUpdater.set__options (Spec.resolve s o) (this w);
        calls := Spec.consulted s o ++ calls w |}).
Proof.
  intros s o. subst s o.
  unfold DynamicStripeGeometryUpdater._setOptions.
  destruct w as [u cs]. run_pass. unfold_resolution.
  rewrite <- !baseHeight_code. unfold_resolution.
  destruct u as [[e fe sp fp mp ddc top ot [i vf ps wd ct ht eh gr oa]]].
  match goal with
  | |- context [strict_equals ?a ?b] => destruct (strict_equals a b)
  end; reflexivity.
Qed.

(** Every helper that takes the base height is handed the one of step 1,
    and both such helpers are consulted. *)
Lemma consulted_heightFed (s : Spec.Samples) (o : StripeGeometryOptions.t) (c : Call)
    (h : option number) :
  In c (Spec.consulted s o) -> Spec.heightFed c = Some h -> h = Spec.baseHeight s.
Proof.
  unfold Spec.consulted. intros Hin Hfed. apply in_app_or in Hin. destruct Hin as [Hin|Hin].
  - destruct (Spec.clamped s); simpl in Hin.
    + destruct Hin as [<-|[<-|[]]]; discriminate Hfed.
    + contradiction.
  - simpl in Hin. destruct Hin as [<-|[<-|[<-|[]]]]; simpl in Hfed; congruence.
Qed.

Lemma consulted_helpers (s : Spec.Samples) (o : StripeGeometryOptions.t) :
  In (Called_computeGeometryOffsetAttribute
        (Spec.baseHeight s) (Spec.heightReference s)
        (Spec.extrudedHeight s) (Spec.extrudedHeightReference s))
     (Spec.consulted s o)
  /\ In (Called_getGeometryHeight (Spec.baseHeight s) (Spec.heightReference s))
        (Spec.consulted s o).
Proof. unfold Spec.consulted. split; apply in_or_app; right; simpl; auto. Qed.

(** An extrusion that did not resolve to the sentinel is stored as it is,
    and neither the rectangle nor the terrain is consulted. *)
Lemma consulted_not_clamped (s : Spec.Samples) (o : StripeGeometryOptions.t) (c : Call) :
  Spec.clamped s = false -> In c (Spec.consulted s o) -> Spec.terrainLookup c = false.
Proof.
  unfold Spec.consulted. intros -> Hin. simpl in Hin.
  destruct Hin as [<-|[<-|[<-|[]]]]; reflexivity.
Qed.

Lemma consulted_clamped (s : Spec.Samples) (o : StripeGeometryOptions.t) :
  Spec.clamped s = true ->
  In (Called_getMinimumMaximumHeights (Spec.boundingRectangle s o)) (Spec.consulted s o).
Proof. unfold Spec.consulted. intros ->. simpl. auto. Qed.

Lemma resolve_populated (s : Spec.Samples) (o : StripeGeometryOptions.t) :
  Spec.resolve s o
  = StripeGeometryOptions.set_extrudedHeight
      (StripeGeometryOptions.extrudedHeight (Spec.resolve s o)) (Spec.populated s o).
Proof. reflexivity. Qed.

(** C2. In the static pass and in the per-tick pass alike: when, at the
    instant of the pass, the sampled [extrudedHeight] is defined and the
    sampled [height] is undefined, every helper that takes the height is
    handed 0; and once the pass has returned, the offset attribute and the
    height of the options are what [computeGeometryOffsetAttribute] and
    [getGeometryHeight] make of 0.  (The per-tick pass always returns.) *)
Theorem extrusion_without_height_starts_at_zero :
  forall (entity : Entity.t) (stripe : StripeGraphics.t),
    (forall (w : World StripeGeometryUpdater.t) (extrusion : number),
       Spec.extrudedHeight (Spec.sampleAt stripe Iso8601.MINIMUM_VALUE) = Some extrusion ->
       Spec.height (Spec.sampleAt stripe Iso8601.MINIMUM_VALUE) = None ->
       exists r w' consulted,
         StripeGeometryUpdater._setStaticOptions entity stripe w = (r, w')
         /\ calls w' = (consulted ++ calls w)%list
         /\ (forall c h, In c consulted -> Spec.heightFed c = Some h -> h = Some 0%float)
         /\ (r = inr tt ->
             In (Called_computeGeometryOffsetAttribute
                   (Some 0%float)
                   (Spec.heightReference (Spec.sampleAt stripe Iso8601.MINIMUM_VALUE))
                   (Some extrusion)
                   (Spec.extrudedHeightReference (Spec.sampleAt stripe Iso8601.MINIMUM_VALUE)))
                consulted
             /\ In (Called_getGeometryHeight
                      (Some 0%float)
                      (Spec.heightReference (Spec.sampleAt stripe Iso8601.MINIMUM_VALUE)))
                   consulted
             /\ StripeGeometryOptions.offsetAttribute (StripeGeometryUpdater._options (this w'))
                = GroundGeometryUpdater.computeGeometryOffsetAttribute
                    (Some 0%float)
                    (Spec.heightReference (Spec.sampleAt stripe Iso8601.MINIMUM_VALUE))
                    (Some extrusion)
                    (Spec.extrudedHeightReference (Spec.sampleAt stripe Iso8601.MINIMUM_VALUE))
             /\ StripeGeometryOptions.height (StripeGeometryUpdater._options (this w'))
                = GroundGeometryUpdater.getGeometryHeight
                    (Some 0%float)
                    (Spec.heightReference (Spec.sampleAt stripe Iso8601.MINIMUM_VALUE))))
    /\ (forall (time : JulianDate) (w : World DynamicStripeGeometryUpdater.t) (extrusion : number),
          Spec.extrudedHeight (Spec.sampleAt stripe time) = Some extrusion ->
          Spec.height (Spec.sampleAt stripe time) = None ->
          exists w' consulted,
            DynamicStripeGeometryUpdater._setOptions entity stripe time w = (inr tt, w')
            /\ calls w' = (consulted ++ calls w)%list
            /\ (forall c h, In c consulted -> Spec.heightFed c = Some h -> h = Some 0%float)
            /\ In (Called_computeGeometryOffsetAttribute
                     (Some 0%float) (Spec.heightReference (Spec.sampleAt stripe time))
                     (Some extrusion) (Spec.extrudedHeightReference (Spec.sampleAt stripe time)))
                  consulted
            /\ In (Called_getGeometryHeight
                     (Some 0%float) (Spec.heightReference (Spec.sampleAt stripe time)))
                  consulted
            /\ StripeGeometryOptions.offsetAttribute
                 (DynamicStripeGeometryUpdater._options (this w'))
               = GroundGeometryUpdater.computeGeometryOffsetAttribute
                   (Some 0%float) (Spec.heightReference (Spec.sampleAt stripe time))
                   (Some extrusion) (Spec.extrudedHeightReference (Spec.sampleAt stripe time))
            /\ StripeGeometryOptions.height (DynamicStripeGeometryUpdater._options (this w'))
               = GroundGeometryUpdater.getGeometryHeight
                   (Some 0%float) (Spec.heightReference (Spec.sampleAt stripe time))).
Proof.
  intros entity stripe. split.
  - intros w extrusion Ee Eh.
    pose proof (baseHeight_zero _ _ Ee Eh) as Hzero.
    destruct (StripeGraphics.positions stripe) as [positions|] eqn:Hp.
    + destruct (StripeGraphics.width stripe) as [width|] eqn:Hw.
      * rewrite (setStaticOptions_returns entity stripe w _ _ Hp Hw).
        eexists _, _, _. split; [reflexivity|]. split; [reflexivity|]. split.
        { intros c h Hin Hfed. rewrite (consulted_heightFed _ _ _ _ Hin Hfed). exact Hzero. }
        intros _. rewrite <- Hzero, <- Ee. split; [apply consulted_helpers|].
        split; [apply consulted_helpers|]. split; reflexivity.
      * destruct (setStaticOptions_without_width entity stripe w _ Hp Hw) as (message & ->).
        eexists _, _, []. split; [reflexivity|]. split; [reflexivity|]. split.
        { intros c h []. }
        discriminate.
    + destruct (setStaticOptions_without_positions entity stripe w Hp) as (message & ->).
      eexists _, _, []. split; [reflexivity|]. split; [reflexivity|]. split.
      { intros c h []. }
      discriminate.
  - intros time w extrusion Ee Eh.
    pose proof (baseHeight_zero _ _ Ee Eh) as Hzero.
    rewrite setOptions_returns.
    eexists _, _. split; [reflexivity|]. split; [reflexivity|]. split.
    { intros c h Hin Hfed. rewrite (consulted_heightFed _ _ _ _ Hin Hfed). exact Hzero. }
    rewrite <- Hzero, <- Ee. split; [apply consulted_helpers|].
    split; [apply consulted_helpers|]. split; reflexivity.
Qed.

Lemma resolve_extrudedHeight_if (s : Spec.Samples) (o : StripeGeometryOptions.t) (b : bool) :
  strict_equals
    (GroundGeometryUpdater.getGeometryExtrudedHeight
       (Spec.extrudedHeight s) (Spec.extrudedHeightReference s))
    GroundGeometryUpdater.CLAMP_TO_GROUND = b ->
  StripeGeometryOptions.extrudedHeight (Spec.resolve s o)
  = if b
    then JNumber
           (ApproximateTerrainHeights.minimumTerrainHeight
              (ApproximateTerrainHeights.getMinimumMaximumHeights
                 (StripeGeometry.computeRectangle (Spec.populated s o))))
    else GroundGeometryUpdater.getGeometryExtrudedHeight
           (Spec.extrudedHeight s) (Spec.extrudedHeightReference s).
Proof. intros <-. reflexivity. Qed.

(** C3. In the static pass (on a descriptor with positions and width, so
    that the pass gets there) and in the per-tick pass: the options end as
    the options populated by the pass with the final extrusion put in; if
    the extrusion resolved against its reference is [===] to
    [CLAMP_TO_GROUND], the final extrusion is the [minimumTerrainHeight]
    that [getMinimumMaximumHeights] returns for [computeRectangle] of those
    populated options; if it is not, the resolved value is stored as it is
    and the pass consults neither [computeRectangle] nor the terrain. *)
Theorem clamped_extrusion_is_the_minimum_terrain_height :
  forall (entity : Entity.t) (stripe : StripeGraphics.t),
    (forall (w : World StripeGeometryUpdater.t)
            (positions : Property (list Cartesian3.t)) (width : Property number),
       StripeGraphics.positions stripe = Some positions ->
       StripeGraphics.width stripe = Some width ->
       forall (s : Spec.Samples) (populated : StripeGeometryOptions.t),
         s = Spec.sampleAt stripe Iso8601.MINIMUM_VALUE ->
         populated
         = Spec.populated s
             (StripeGeometryOptions.set_vertexFormat
                (Some (Spec.vertexFormatOf (StripeGeometryUpdater._materialProperty (this w))))
                (StripeGeometryUpdater._options (this w))) ->
         exists w' consulted,
           StripeGeometryUpdater._setStaticOptions entity stripe w = (inr tt, w')
           /\ calls w' = (consulted ++ calls w)%list
           /\ StripeGeometryUpdater._options (this w')
              = StripeGeometryOptions.set_extrudedHeight
                  (StripeGeometryOptions.extrudedHeight (StripeGeometryUpdater._options (this w')))
                  populated
           /\ (strict_equals
                 (GroundGeometryUpdater.getGeometryExtrudedHeight
                    (Spec.extrudedHeight s) (Spec.extrudedHeightReference s))
                 GroundGeometryUpdater.CLAMP_TO_GROUND = true ->
               StripeGeometryOptions.extrudedHeight (StripeGeometryUpdater._options (this w'))
               = JNumber
                   (ApproximateTerrainHeights.minimumTerrainHeight
                      (ApproximateTerrainHeights.getMinimumMaximumHeights
                         (StripeGeometry.computeRectangle populated)))
               /\ In (Called_getMinimumMaximumHeights (StripeGeometry.computeRectangle populated))
                     consulted)
           /\ (strict_equals
                 (GroundGeometryUpdater.getGeometryExtrudedHeight
                    (Spec.extrudedHeight s) (Spec.extrudedHeightReference s))
                 GroundGeometryUpdater.CLAMP_TO_GROUND = false ->
               StripeGeometryOptions.extrudedHeight (StripeGeometryUpdater._options (this w'))
               = GroundGeometryUpdater.getGeometryExtrudedHeight
                   (Spec.extrudedHeight s) (Spec.extrudedHeightReference s)
               /\ (forall c, In c consulted -> Spec.terrainLookup c = false)))
    /\ (forall (time : JulianDate) (w : World DynamicStripeGeometryUpdater.t)
               (s : Spec.Samples) (populated : StripeGeometryOptions.t),
          s = Spec.sampleAt stripe time ->
          populated = Spec.populated s (DynamicStripeGeometryUpdater._options (this w)) ->
          exists w' consulted,
            DynamicStripeGeometryUpdater._setOptions entity stripe time w = (inr tt, w')
            /\ calls w' = (consulted ++ calls w)%list
            /\ DynamicStripeGeometryUpdater._options (this w')
               = StripeGeometryOptions.set_extrudedHeight
                   (StripeGeometryOptions.extrudedHeight
                      (DynamicStripeGeometryUpdater._options (this w')))
                   populated
            /\ (strict_equals
                  (GroundGeometryUpdater.getGeometryExtrudedHeight
                     (Spec.extrudedHeight s) (Spec.extrudedHeightReference s))
                  GroundGeometryUpdater.CLAMP_TO_GROUND = true ->
                StripeGeometryOptions.extrudedHeight
                  (DynamicStripeGeometryUpdater._options (this w'))
                = JNumber
                    (ApproximateTerrainHeights.minimumTerrainHeight
                       (ApproximateTerrainHeights.getMinimumMaximumHeights
                          (StripeGeometry.computeRectangle populated)))
                /\ In (Called_getMinimumMaximumHeights (StripeGeometry.computeRectangle populated))
                      consulted)
            /\ (strict_equals
                  (GroundGeometryUpdater.getGeometryExtrudedHeight
                     (Spec.extrudedHeight s) (Spec.extrudedHeightReference s))
                  GroundGeometryUpdater.CLAMP_TO_GROUND = false ->
                StripeGeometryOptions.extrudedHeight
                  (DynamicStripeGeometryUpdater._options (this w'))
                = GroundGeometryUpdater.getGeometryExtrudedHeight
                    (Spec.extrudedHeight s) (Spec.extrudedHeightReference s)
                /\ (forall c, In c consulted -> Spec.terrainLookup c = false))).
Proof.
  intros entity stripe. split.
  - intros w positions width Hp Hw s populated -> ->.
    rewrite (setStaticOptions_returns entity stripe w _ _ Hp Hw).
    eexists _, _. split; [reflexivity|]. split; [reflexivity|].
    cbn [this StripeGeometryUpdater._options StripeGeometryUpdater.set__options].
    split; [apply resolve_populated|]. split; intros Hc.
    + split; [|apply (consulted_clamped _ _ Hc)].
      apply (resolve_extrudedHeight_if _ _ _ Hc).
    + split; [|intros c Hin; apply (consulted_not_clamped _ _ _ Hc Hin)].
      apply (resolve_extrudedHeight_if _ _ _ Hc).
  - intros time w s populated -> ->.
    rewrite setOptions_returns.
    eexists _, _. split; [reflexivity|]. split; [reflexivity|].
    cbn [this DynamicStripeGeometryUpdater._options DynamicStripeGeometryUpdater.set__options].
    split; [apply resolve_populated|]. split; intros Hc.
    + split; [|apply (consulted_clamped _ _ Hc)].
      apply (resolve_extrudedHeight_if _ _ _ Hc).
    + split; [|intros c Hin; apply (consulted_not_clamped _ _ _ Hc Hin)].
      apply (resolve_extrudedHeight_if _ _ _ Hc).
Qed.

(** The outcome of the resolution depends on the record it is run on only
    through the rectangle, and only for an extrusion clamped to the
    ground. *)
Lemma resolve_same_resolution (s : Spec.Samples) (o o' : StripeGeometryOptions.t) :
  (Spec.clamped s = true -> Spec.rectangle_of_outline) ->
  Spec.same_resolution (Spec.resolve s o) (Spec.resolve s o').
Proof.
  intros Hrect. unfold Spec.same_resolution. split; [reflexivity|]. split; [|reflexivity].
  change (Spec.finalExtrudedHeight s o = Spec.finalExtrudedHeight s o').
  unfold Spec.finalExtrudedHeight, Spec.boundingRectangle.
  destruct (Spec.clamped s); [|reflexivity].
  rewrite (Hrect eq_refl (Spec.populated s o) (Spec.populated s o')); [reflexivity|].
  unfold Spec.same_outline. cbn. repeat split.
Qed.

(** C4.  The static pass samples every field at [Iso8601.MINIMUM_VALUE].
    For a descriptor that the guard [_isHidden] lets through to the passes
    (its [positions] and [width] are defined) and whose samples at that
    epoch equal its samples at [time], the static pass and the per-tick
    pass at [time] both return, each having run the resolution algorithm on
    its samples, and they leave the same resolved height, extrusion and
    offset attribute in their options.  For an extrusion clamped to the
    ground each pass asks [StripeGeometry.computeRectangle], which is not
    among the sources, for the rectangle of its own options: it is taken to
    compute the bounding rectangle from the outline of the shape. *)
Theorem static_and_dynamic_passes_agree :
  forall (entity : Entity.t) (stripe : StripeGraphics.t) (time : JulianDate)
         (static : World StripeGeometryUpdater.t) (dynamic : World DynamicStripeGeometryUpdater.t)
         (positions : Property (list Cartesian3.t)) (width : Property number),
    StripeGraphics.positions stripe = Some positions ->
    StripeGraphics.width stripe = Some width ->
    (Spec.clamped (Spec.sampleAt stripe time) = true -> Spec.rectangle_of_outline) ->
    exists static' dynamic',
      StripeGeometryUpdater._setStaticOptions entity stripe static = (inr tt, static')
      /\ DynamicStripeGeometryUpdater._setOptions entity stripe time dynamic = (inr tt, dynamic')
      /\ StripeGeometryUpdater._options (this static')
         = Spec.resolve (Spec.sampleAt stripe Iso8601.MINIMUM_VALUE)
             (StripeGeometryOptions.set_vertexFormat
                (Some (Spec.vertexFormatOf
                         (StripeGeometryUpdater._materialProperty (this static))))
                (StripeGeometryUpdater._options (this static)))
      /\ DynamicStripeGeometryUpdater._options (this dynamic')
         = Spec.resolve (Spec.sampleAt stripe time)
             (DynamicStripeGeometryUpdater._options (this dynamic))
      /\ Spec.passes_agree entity stripe time static dynamic.
Proof.
  intros entity stripe time static dynamic positions width Hp Hw Hrect.
  unfold Spec.passes_agree.
  rewrite (setStaticOptions_returns entity stripe static _ _ Hp Hw), setOptions_returns.
  eexists _, _. split; [reflexivity|]. split; [reflexivity|].
  cbn [this snd StripeGeometryUpdater._options StripeGeometryUpdater.set__options
       DynamicStripeGeometryUpdater._options DynamicStripeGeometryUpdater.set__options].
  split; [reflexivity|]. split; [reflexivity|].
  intros Esamples. rewrite Esamples. apply resolve_same_resolution. exact Hrect.
Qed.

End Passes.

(** ** Runs on concrete descriptors *)

Section Runs.
#[local] Existing Instance Example.iso8601.
#[local] Existing Instance Example.ground.
#[local] Existing Instance Example.terrain.
#[local] Existing Instance Example.geometry.
#[local] Existing Instance Example.base.
#[local] Existing Instance Example.construction.
#[local] Existing Instance Example.distance.

(** The example rectangle is read off the positions alone. *)
Lemma example_rectangle_of_outline : Spec.rectangle_of_outline.
Proof.
  intros o o' (Hp & _). cbn. rewrite Hp. reflexivity.
Qed.

(** A stripe whose width changes is dynamic. *)
Lemma isDynamic_witness :
  StripeGraphics.positions Example.widening = Some (Example.constant Example.centerline)
  /\ StripeGeometryUpdater._isDynamic (Example.updater Example.widening true)
       (Example.entity (Some Example.widening)) Example.widening
     = inr true.
Proof.
  split; [reflexivity|].
  destruct (isDynamic_iff_an_input_varies (Example.updater Example.widening true)
              (Example.entity (Some Example.widening)) Example.widening
              (Example.constant Example.centerline) eq_refl) as (dynamic & Hrun & Hiff).
  rewrite Hrun. f_equal. apply Hiff.
  right. right. right. right. left. reflexivity.
Defined.

(** Scenario A: all constant, so not dynamic. *)
Example isDynamic_flat :
  StripeGeometryUpdater._isDynamic (Example.updater Example.flat true)
    (Example.entity (Some Example.flat)) Example.flat
  = inr false.
Proof. reflexivity. Qed.

Lemma isHidden_witness :
  StripeGeometryUpdater._isHidden (Example.updater Example.blank true)
    (Example.entity (Some Example.blank))
    (StripeGraphics.set_fill (Some (Example.constant true))
       (StripeGraphics.set_show (Some (Example.constant true)) Example.blank))
  = true.
Proof.
  exact (proj1 (isHidden_without_positions_or_width (Example.updater Example.blank true)
                  (Example.entity (Some Example.blank)) Example.blank)
           (or_introl eq_refl) (Some (Example.constant true)) (Some (Example.constant true))).
Defined.

(** Scenario B: fill disabled. *)
Lemma createFillGeometryInstance_disabled_witness :
  StripeGeometryUpdater._fillEnabled (this (Example.world (Example.updater Example.flat false)))
  = false
  /\ exists message,
       StripeGeometryUpdater.createFillGeometryInstance (Some Example.noon)
         (Example.world (Example.updater Example.flat false))
       = (inl (DeveloperError message), Example.world (Example.updater Example.flat false)).
Proof.
  split; [reflexivity|].
  exact (createFillGeometryInstance_refuses_disabled_fill (Some Example.noon)
           (Example.world (Example.updater Example.flat false)) eq_refl).
Defined.

(** The static pass on [Example.flat] leaves the options [Example.resolved]. *)
Example setStaticOptions_flat_resolved :
  this (snd (StripeGeometryUpdater._setStaticOptions (Example.entity (Some Example.flat))
               Example.flat (Example.world (Example.updater Example.flat true))))
  = Example.ready.
Proof. vm_compute. reflexivity. Qed.

(** Scenario A: shown and filled gives a [show] attribute that is true. *)
Lemma createFillGeometryInstance_show_witness :
  exists instance,
    StripeGeometryUpdater.createFillGeometryInstance (Some Example.noon)
      (Example.world Example.ready)
    = (inr instance, Example.world Example.ready)
    /\ ShowGeometryInstanceAttribute.value
         (GeometryInstance.show (GeometryInstance.attributes instance))
       = true.
Proof.
  eexists. split; [reflexivity|].
  exact (proj1 (createFillGeometryInstance_show_is_the_conjunction Example.noon
                  (Example.world Example.ready) (Example.world Example.ready) _ eq_refl)
           true true eq_refl eq_refl).
Defined.

(** The show property of [Example.lapsing] has no value at noon: the entity
    is available and showing and the shape is filled, the conjunction is
    undefined and so not true, and the instance is shown. *)
Lemma createFillGeometryInstance_shows_without_a_show_sample :
  exists instance,
    StripeGeometryUpdater.createFillGeometryInstance (Some Example.noon)
      (Example.world Example.lapsing)
    = (inr instance, Example.world Example.lapsing)
    /\ ShowGeometryInstanceAttribute.value
         (GeometryInstance.show (GeometryInstance.attributes instance))
       = true
    /\ Property.getValueOrUndefined (StripeGeometryUpdater._showProperty Example.lapsing)
         Example.noon
       = None
    /\ truthy (StripeGeometryUpdater.shown Example.lapsing Example.noon) = false.
Proof.
  eexists. split; [reflexivity|]. repeat split; vm_compute; reflexivity.
Qed.

(** Scenario C. *)
Example createOutlineGeometryInstance_flat :
  StripeGeometryUpdater.createOutlineGeometryInstance (Some Example.noon)
    (Example.world (Example.updater Example.flat true))
  = (inl (Error "outline is an unsupported function"),
     Example.world (Example.updater Example.flat true)).
Proof. reflexivity. Qed.

(** The center of [(0,0,0), (1,0,0), (2,0,0)] is [(1,0,0)]. *)
Lemma computeCenter_witness :
  Entity.stripe (StripeGeometryUpdater._entity (Example.updater Example.flat true))
  = Some Example.flat
  /\ StripeGeometryUpdater._computeCenter (Example.updater Example.flat true) Example.noon None
     = inr (Some (Example.point 1%float 0%float 0%float)).
Proof.
  split; [reflexivity|].
  destruct (proj2 (computeCenter_is_the_middle_vertex (Example.updater Example.flat true)
                     Example.noon None Example.flat eq_refl)
              Example.centerline eq_refl) as (middle & Hnth & Hrun).
  - discriminate.
  - rewrite Hrun. f_equal. symmetry. exact Hnth.
Defined.

Lemma merge_witness :
  exists g',
    StripeGraphics.merge (StripeGraphics.another Example.clamped) Example.flat = (inr tt, g')
    /\ StripeGraphics.all_kept_or_filled Example.flat Example.clamped g'.
Proof.
  exact (proj1 (merge_fills_only_undefined_fields Example.flat
                  (StripeGraphics.another Example.clamped))
           Example.clamped eq_refl).
Defined.

(** Scenario D: an extrusion of 30 and no height, both references NONE.
    The helpers are handed a height of 0, and the terrain is not consulted. *)
Lemma extrusion_without_height_witness :
  Spec.extrudedHeight (Spec.sampleAt Example.extruded Iso8601.MINIMUM_VALUE) = Some 30%float
  /\ Spec.height (Spec.sampleAt Example.extruded Iso8601.MINIMUM_VALUE) = None
  /\ exists w',
       StripeGeometryUpdater._setStaticOptions (Example.entity (Some Example.extruded))
         Example.extruded (Example.world (Example.updater Example.extruded true))
       = (inr tt, w')
       /\ StripeGeometryOptions.height (StripeGeometryUpdater._options (this w'))
          = JNumber 0%float
       /\ StripeGeometryOptions.offsetAttribute (StripeGeometryUpdater._options (this w')) = None.
Proof.
  split; [reflexivity|]. split; [reflexivity|].
  destruct (proj1 (extrusion_without_height_starts_at_zero
                     (Example.entity (Some Example.extruded)) Example.extruded)
              (Example.world (Example.updater Example.extruded true)) 30%float eq_refl eq_refl)
    as (r & w' & consulted & Hrun & _ & _ & Hreturned).
  assert (Hr : r = inr tt).
  { apply (f_equal fst) in Hrun. vm_compute in Hrun. symmetry. exact Hrun. }
  subst r. exists w'. split; [exact Hrun|].
  destruct (Hreturned eq_refl) as (_ & _ & Hoffset & Hheight).
  split; [exact Hheight|exact Hoffset].
Defined.

(** Scenario A: a flat stripe at height 0 needs no offset. *)
Example setStaticOptions_flat :
  exists w',
    StripeGeometryUpdater._setStaticOptions (Example.entity (Some Example.flat))
      Example.flat (Example.world (Example.updater Example.flat true))
    = (inr tt, w')
    /\ StripeGeometryOptions.offsetAttribute (StripeGeometryUpdater._options (this w')) = None
    /\ StripeGeometryOptions.height (StripeGeometryUpdater._options (this w')) = JNumber 0%float
    /\ StripeGeometryOptions.extrudedHeight (StripeGeometryUpdater._options (this w'))
       = JUndefined
    /\ StripeGeometryOptions.positions (StripeGeometryUpdater._options (this w'))
       = Some Example.centerline.
Proof. eexists. split; [reflexivity|]. repeat split. Qed.

Example setOptions_extruded :
  exists w',
    DynamicStripeGeometryUpdater._setOptions (Example.entity (Some Example.extruded))
      Example.extruded Example.noon (Example.world (Example.dynamicUpdater Example.extruded))
    = (inr tt, w')
    /\ StripeGeometryOptions.height (DynamicStripeGeometryUpdater._options (this w'))
       = JNumber 0%float
    /\ StripeGeometryOptions.extrudedHeight (DynamicStripeGeometryUpdater._options (this w'))
       = JNumber 30%float
    /\ calls w'
       = [Called_getGeometryExtrudedHeight (Some 30%float) HeightReference.NONE;
          Called_getGeometryHeight (Some 0%float) HeightReference.NONE;
          Called_computeGeometryOffsetAttribute
            (Some 0%float) HeightReference.NONE (Some 30%float) HeightReference.NONE].
Proof. eexists. split; [reflexivity|]. repeat split. Qed.

(** An extrusion clamped to the ground over the eastern centerline: the
    terrain under the rectangle from 7 to 9 is lowest at 7. *)
Lemma clamped_extrusion_witness :
  StripeGraphics.positions Example.clamped = Some (Example.constant Example.eastern)
  /\ StripeGraphics.width Example.clamped = Some (Example.constant 2%float)
  /\ exists w',
       StripeGeometryUpdater._setStaticOptions (Example.entity (Some Example.clamped))
         Example.clamped (Example.world (Example.updater Example.clamped true))
       = (inr tt, w')
       /\ StripeGeometryOptions.extrudedHeight (StripeGeometryUpdater._options (this w'))
          = JNumber 7%float.
Proof.
  split; [reflexivity|]. split; [reflexivity|].
  destruct (proj1 (clamped_extrusion_is_the_minimum_terrain_height
                     (Example.entity (Some Example.clamped)) Example.clamped)
              (Example.world (Example.updater Example.clamped true))
              (Example.constant Example.eastern) (Example.constant 2%float) eq_refl eq_refl
              _ _ eq_refl eq_refl)
    as (w' & consulted & Hrun & _ & _ & Hclamped & _).
  exists w'. split; [exact Hrun|].
  exact (proj1 (Hclamped eq_refl)).
Defined.

(** A descriptor with positions and width, sampled at noon as at the
    epoch: the two passes agree. *)
Lemma static_and_dynamic_passes_witness :
  StripeGraphics.positions Example.clamped = Some (Example.constant Example.eastern)
  /\ StripeGraphics.width Example.clamped = Some (Example.constant 2%float)
  /\ Spec.clamped (Spec.sampleAt Example.clamped Example.noon) = true
  /\ Spec.rectangle_of_outline
  /\ Spec.sampleAt Example.clamped Iso8601.MINIMUM_VALUE
     = Spec.sampleAt Example.clamped Example.noon
  /\ Spec.same_resolution
       (StripeGeometryUpdater._options
          (this (snd (StripeGeometryUpdater._setStaticOptions
                        (Example.entity (Some Example.clamped)) Example.clamped
                        (Example.world (Example.updater Example.clamped true))))))
       (DynamicStripeGeometryUpdater._options
          (this (snd (DynamicStripeGeometryUpdater._setOptions
                        (Example.entity (Some Example.clamped)) Example.clamped Example.noon
                        (Example.world (Example.dynamicUpdater Example.clamped)))))).
Proof.
  split; [reflexivity|]. split; [reflexivity|]. split; [vm_compute; reflexivity|].
  split; [exact example_rectangle_of_outline|]. split; [reflexivity|].
  destruct (static_and_dynamic_passes_agree
              (Example.entity (Some Example.clamped)) Example.clamped Example.noon
              (Example.world (Example.updater Example.clamped true))
              (Example.world (Example.dynamicUpdater Example.clamped))
              (Example.constant Example.eastern) (Example.constant 2%float)
              eq_refl eq_refl (fun _ => example_rectangle_of_outline))
    as (static' & dynamic' & _ & _ & _ & _ & Hagree).
  exact (Hagree eq_refl).
Defined.

(** Called on a descriptor that the guard [_isHidden] keeps away from it,
    the static pass throws at [stripe.positions.getValue], before it has
    consulted a collaborator; the per-tick pass reads the same descriptor
    through [Property.getValueOrUndefined] and returns. *)
Example setStaticOptions_without_positions_run :
  exists message w',
    StripeGeometryUpdater._setStaticOptions (Example.entity (Some Example.no_centerline))
      Example.no_centerline (Example.world (Example.updater Example.no_centerline true))
    = (inl (TypeError message), w')
    /\ StripeGeometryOptions.height (StripeGeometryUpdater._options (this w')) = JUndefined
    /\ calls w' = [].
Proof. eexists _, _. split; [reflexivity|]. split; reflexivity. Qed.

Example setOptions_without_positions_run :
  exists w',
    DynamicStripeGeometryUpdater._setOptions (Example.entity (Some Example.no_centerline))
      Example.no_centerline Example.noon
      (Example.world (Example.dynamicUpdater Example.no_centerline))
    = (inr tt, w')
    /\ StripeGeometryOptions.height (DynamicStripeGeometryUpdater._options (this w'))
       = JNumber 5%float.
Proof. eexists. split; reflexivity. Qed.

End Runs.

(** * Further properties *)

(** ** StripeGraphics: construction, cloning, and the algebra of merge *)

Section Descriptors.
Import StripeGraphics.

Lemma defaultValue_idempotent {A : Type} (a b : option A) :
  defaultValue (defaultValue a b) b = defaultValue a b.
Proof. destruct a, b; reflexivity. Qed.

Lemma defaultValue_associative {A : Type} (a b c : option A) :
  defaultValue (defaultValue a b) c = defaultValue a (defaultValue b c).
Proof. destruct a; reflexivity. Qed.

Lemma defaultValue_same {A : Type} (a : option A) : defaultValue a a = a.
Proof. destruct a; reflexivity. Qed.

Lemma defaultValue_none {A : Type} (a : option A) : defaultValue a None = a.
Proof. destruct a; reflexivity. Qed.

Lemma merged_itself (g : t) : merged g g = g.
Proof. destruct g. unfold merged. cbn. rewrite !defaultValue_same. reflexivity. Qed.

Lemma merged_unset (g : t) : merged g unset = g.
Proof. destruct g. unfold merged. cbn. rewrite !defaultValue_none. reflexivity. Qed.

Lemma merged_idempotent (g s : t) : merged (merged g s) s = merged g s.
Proof. unfold merged. cbn. rewrite !defaultValue_idempotent. reflexivity. Qed.

Lemma merged_associative (g a b : t) : merged (merged g a) b = merged g (merged a b).
Proof. unfold merged. cbn. rewrite !defaultValue_associative. reflexivity. Qed.

Lemma merge_state (g : t) (source : Source) :
  snd (merge source g)
  = match denoted source g with
    | Some theirs => merged g theirs
    | None => g
    end.
Proof.
  destruct source as [| |s]; cbn [denoted].
  - reflexivity.
  - rewrite merge_itself. reflexivity.
  - rewrite merge_another. reflexivity.
Qed.

(** X1. [new StripeGraphics(options)] never throws, also for undefined
    options, and the descriptor it builds holds exactly the fields of the
    options: none when there are no options. *)
Theorem new_holds_the_options :
  forall options : option t,
    new options = inr (match options with Some o => o | None => unset end).
Proof.
  intros [o|].
  - destruct o. vm_compute. reflexivity.
  - vm_compute. reflexivity.
Qed.

(** X2. [clone] always returns a descriptor with exactly the receiver's
    fields: a new one when no result is given, and otherwise the result
    with every field overwritten, whatever it held before (where [merge]
    would have kept its defined fields), also when the result is the
    receiver itself. *)
Theorem clone_returns_a_copy :
  forall (this : t) (result : Source), clone this result = inr this.
Proof.
  intros this [| |target]; destruct this.
  - vm_compute. reflexivity.
  - vm_compute. reflexivity.
  - destruct target. vm_compute. reflexivity.
Qed.

(** X3. Merging the same source a second time changes nothing more than
    the first time did, whatever the source is (undefined, the receiver,
    another descriptor). *)
Theorem merge_is_idempotent :
  forall (g : t) (source : Source),
    snd (merge source (snd (merge source g))) = snd (merge source g).
Proof.
  intros g source. rewrite !merge_state.
  destruct source as [| |s]; cbn [denoted].
  - reflexivity.
  - rewrite !merged_itself. reflexivity.
  - apply merged_idempotent.
Qed.

(** X4. A merge that has nothing to offer is no change at all: merging a
    descriptor into itself, or merging a source with no field set, returns
    and leaves every field, defined or not, as it was. *)
Theorem merge_without_news_changes_nothing :
  forall g : t,
    merge itself g = (inr tt, g) /\ merge (another unset) g = (inr tt, g).
Proof.
  intros g. rewrite merge_itself, merge_another, merged_itself, merged_unset. split; reflexivity.
Qed.

(** X5. Merges cascade: merging [a] and then [b] into [g] gives what one
    merge gives whose source is [a] after [a.merge(b)]; so [a] takes
    precedence over [b] in every field. *)
Theorem merge_cascades :
  forall g a b : t,
    snd (merge (another b) (snd (merge (another a) g)))
    = snd (merge (another (snd (merge (another b) a))) g).
Proof.
  intros g a b. rewrite !merge_another. cbn [snd]. apply merged_associative.
Qed.

End Descriptors.

(** ** createFillGeometryInstance: outcomes and attributes *)

Section FillInstances.
Import StripeGeometryUpdater.
Context `{StripeGeometry.Constructor} `{DistanceDisplayConditionGeometryInstanceAttribute.Static}.

(** The color handed to [ColorGeometryInstanceAttribute.fromColor]. *)
Definition currentColor (material : MaterialProperty.t) (isAvailable : bool) (time : JulianDate) :
    Color.t :=
  match MaterialProperty.color material with
  | Some color =>
      if isConstant color || isAvailable
      then match getValue color time with Some c => c | None => Color.WHITE end
      else Color.WHITE
  | None => Color.WHITE
  end.

(** A call that returns has returned this instance, and has left the
    updater as it was. *)
Lemma createFillGeometryInstance_instance
    (time : option JulianDate) (w w' : World t) (instance : GeometryInstance.t) :
  createFillGeometryInstance time w = (inr instance, w') ->
  exists t0,
    time = Some t0 /\ w' = w
    /\ GeometryInstance.id instance = _entity (this w)
    /\ GeometryInstance.geometry instance = StripeGeometry.new (_options (this w))
    /\ GeometryInstance.color (GeometryInstance.attributes instance)
       = match _materialProperty (this w) with
         | Some material =>
             if MaterialProperty.instanceof_ColorMaterialProperty material
             then Some (ColorGeometryInstanceAttribute.fromColor
                          (currentColor material (Entity.isAvailable (_entity (this w)) t0) t0))
             else None
         | None => None
         end
    /\ GeometryInstance.offset (GeometryInstance.attributes instance)
       = if defined (StripeGeometryOptions.offsetAttribute (_options (this w)))
         then Some (OffsetGeometryInstanceAttribute.fromCartesian3
                      (Property.getValueOrDefault (_terrainOffsetProperty (this w)) t0
                         Cartesian3.ZERO))
         else None.
Proof.
  intros Hrun.
  destruct time as [time|]; [|discriminate Hrun].
  exists time. split; [reflexivity|].
  destruct w as [[entity fillEnabled showP fillP material ddc offsetP onTerrain options] cs].
  revert Hrun. fill_run.
  fill_cases entity fillEnabled showP fillP ddc options time.
  all: intros Hrun; injection Hrun as <- <-.
  all: (split; [reflexivity|]); (split; [reflexivity|]); (split; [reflexivity|]).
  all: unfold currentColor;
    repeat match goal with E : Entity.isAvailable _ _ = _ |- _ => rewrite E; clear E end.
  all: destruct (defined (StripeGeometryOptions.offsetAttribute options)), material as [m|];
    try destruct (MaterialProperty.instanceof_ColorMaterialProperty m);
    try destruct (MaterialProperty.color m) as [c|];
    try destruct (isConstant c); cbn; try destruct (getValue c time); split; reflexivity.
Qed.

(** X6. [createFillGeometryInstance] only reads: whether it returns or
    throws, and at whichever step it throws, the updater and its options
    are as they were.  A call without a time is refused with a
    [DeveloperError] whether fill is enabled or not. *)
Theorem createFillGeometryInstance_only_reads :
  forall (time : option JulianDate) (w : World t),
    snd (createFillGeometryInstance time w) = w
    /\ (time = None ->
        exists message, fst (createFillGeometryInstance time w) = inl (DeveloperError message)).
Proof.
  intros time w. split.
  - destruct time as [time|]; [|reflexivity].
    destruct w as [[entity fillEnabled showP fillP material ddc offsetP onTerrain options] cs].
    fill_run.
    destruct fillEnabled; cbn; [|reflexivity].
    destruct (Entity.isAvailable entity time), (Entity.isShowing entity); cbn;
      try (destruct showP as [showP|]; cbn; [|reflexivity];
           destruct (getValue showP time) as [[|]|]; cbn;
           try (destruct fillP as [fillP|]; cbn; [|reflexivity])).
    all: destruct ddc as [ddc|]; cbn; [|reflexivity].
    all: destruct (getValue ddc time) as [condition|]; cbn; [|reflexivity].
    all: destruct (DistanceDisplayConditionGeometryInstanceAttribute.refuses condition); cbn;
      [reflexivity|].
    all: destruct (StripeGeometry.refuses options); reflexivity.
  - intros ->. eexists. reflexivity.
Qed.

(** X7. [createFillGeometryInstance] returns an instance only if the time
    is defined, fill is enabled, the distance display condition property is
    there and samples to a defined condition at the time (the one the
    instance then carries), and the operands of the [show] conjunction that
    get evaluated have a property to sample: the show property if the
    entity is available and showing, the fill property if moreover the show
    sample is truthy. *)
Theorem createFillGeometryInstance_returns_only_if :
  forall (time : option JulianDate) (w w' : World t) (instance : GeometryInstance.t),
    createFillGeometryInstance time w = (inr instance, w') ->
    exists t0 distanceDisplayConditionProperty condition,
      time = Some t0
      /\ _fillEnabled (this w) = true
      /\ _distanceDisplayConditionProperty (this w) = Some distanceDisplayConditionProperty
      /\ getValue distanceDisplayConditionProperty t0 = Some condition
      /\ GeometryInstance.distanceDisplayCondition (GeometryInstance.attributes instance)
         = DistanceDisplayConditionGeometryInstanceAttribute.attribute condition
      /\ (Entity.isAvailable (_entity (this w)) t0 && Entity.isShowing (_entity (this w))
          = true ->
          exists showProperty,
            _showProperty (this w) = Some showProperty
            /\ (truthy (getValue showProperty t0) = true -> _fillProperty (this w) <> None)).
Proof.
  intros time w w' instance Hrun.
  destruct time as [time|]; [|discriminate Hrun].
  destruct w as [[entity fillEnabled showP fillP material ddc offsetP onTerrain options] cs].
  revert Hrun. fill_run.
  fill_cases entity fillEnabled showP fillP ddc options time.
  all: intros Hrun; injection Hrun as <- <-.
  all: exists time, ddc, condition.
  all: (split; [reflexivity|]); (split; [reflexivity|]); (split; [reflexivity|]);
       (split; [assumption|]).
  all: split;
    [ destruct (defined (StripeGeometryOptions.offsetAttribute options)), material as [m|];
      try destruct (MaterialProperty.instanceof_ColorMaterialProperty m); reflexivity |].
  all: cbn;
    repeat match goal with
           | E : Entity.isAvailable _ _ = _ |- _ => rewrite E; clear E
           | E : Entity.isShowing _ = _ |- _ => rewrite E; clear E
           end.
  all: intros Hc; try discriminate Hc.
  all: eexists; split; [reflexivity|].
  all: match goal with
       | E : getValue ?p ?t = _ |- context [truthy (getValue ?p ?t)] => rewrite E
       end.
  all: cbn; intros Ht; try discriminate Ht; discriminate.
Qed.

(** X8. The color attribute of a returned instance: there is none unless
    the material is a [ColorMaterialProperty]; for one, it is the color
    sampled at the time when the material has a color property that is
    constant or whose entity is available, and that samples to a color; it
    is white when there is no color property, when the sample is undefined,
    and also when the color varies and the entity is not available at the
    time, whatever the property would sample to. *)
Theorem createFillGeometryInstance_color :
  forall (time : option JulianDate) (w w' : World t) (instance : GeometryInstance.t),
    createFillGeometryInstance time w = (inr instance, w') ->
    exists t0,
      time = Some t0
      /\ (instanceof_ColorMaterialProperty (_materialProperty (this w)) = false ->
          GeometryInstance.color (GeometryInstance.attributes instance) = None)
      /\ (forall material,
            _materialProperty (this w) = Some material ->
            MaterialProperty.instanceof_ColorMaterialProperty material = true ->
            exists c,
              GeometryInstance.color (GeometryInstance.attributes instance)
              = Some (ColorGeometryInstanceAttribute.fromColor c)
              /\ (forall color sampled,
                    MaterialProperty.color material = Some color ->
                    isConstant color = true \/ Entity.isAvailable (_entity (this w)) t0 = true ->
                    getValue color t0 = Some sampled ->
                    c = sampled)
              /\ (MaterialProperty.color material = None -> c = Color.WHITE)
              /\ (forall color,
                    MaterialProperty.color material = Some color ->
                    getValue color t0 = None ->
                    c = Color.WHITE)
              /\ (forall color,
                    MaterialProperty.color material = Some color ->
                    isConstant color = false ->
                    Entity.isAvailable (_entity (this w)) t0 = false ->
                    c = Color.WHITE)).
Proof.
  intros time w w' instance Hrun.
  destruct (createFillGeometryInstance_instance _ _ _ _ Hrun)
    as (t0 & -> & _ & _ & _ & Hcolor & _).
  exists t0. split; [reflexivity|]. split.
  - intros Hclass. rewrite Hcolor.
    destruct (_materialProperty (this w)) as [material|]; [|reflexivity].
    cbn in Hclass. rewrite Hclass. reflexivity.
  - intros material Em Hclass. rewrite Hcolor, Em, Hclass.
    eexists. split; [reflexivity|]. unfold currentColor.
    split; [|split; [|split]].
    + intros color sampled -> Hor ->.
      destruct Hor as [->| ->]; [reflexivity|]. rewrite orb_true_r. reflexivity.
    + intros ->. reflexivity.
    + intros color -> ->. destruct (isConstant color || _); reflexivity.
    + intros color -> -> ->. reflexivity.
Qed.

(** X9. A returned instance carries the updater's entity as its id and a
    geometry built from the options as the last pass left them.  It has an
    offset attribute exactly when those options have an offset attribute,
    and then the offset is the terrain offset sampled at the time, or the
    zero vector when there is no terrain offset property or it samples to
    nothing. *)
Theorem createFillGeometryInstance_offset :
  forall (time : option JulianDate) (w w' : World t) (instance : GeometryInstance.t),
    createFillGeometryInstance time w = (inr instance, w') ->
    exists t0,
      time = Some t0
      /\ GeometryInstance.id instance = _entity (this w)
      /\ GeometryInstance.geometry instance = StripeGeometry.new (_options (this w))
      /\ (StripeGeometryOptions.offsetAttribute (_options (this w)) = None ->
          GeometryInstance.offset (GeometryInstance.attributes instance) = None)
      /\ (forall kind,
            StripeGeometryOptions.offsetAttribute (_options (this w)) = Some kind ->
            exists v,
              GeometryInstance.offset (GeometryInstance.attributes instance)
              = Some (OffsetGeometryInstanceAttribute.fromCartesian3 v)
              /\ (Property.getValueOrUndefined (_terrainOffsetProperty (this w)) t0 = None ->
                  v = Cartesian3.ZERO)
              /\ (forall sampled,
                    Property.getValueOrUndefined (_terrainOffsetProperty (this w)) t0
                    = Some sampled ->
                    v = sampled)).
Proof.
  intros time w w' instance Hrun.
  destruct (createFillGeometryInstance_instance _ _ _ _ Hrun)
    as (t0 & -> & _ & Hid & Hgeometry & _ & Hoffset).
  exists t0. split; [reflexivity|]. split; [exact Hid|]. split; [exact Hgeometry|].
  rewrite Hoffset. split.
  - intros ->. reflexivity.
  - intros kind ->. cbn. eexists. split; [reflexivity|].
    unfold Property.getValueOrDefault, Property.getValueOrUndefined.
    destruct (_terrainOffsetProperty (this w)) as [p|].
    + split; [intros ->; reflexivity | intros sampled ->; reflexivity].
    + split; [reflexivity | intros sampled E; discriminate E].
Qed.

End FillInstances.

(** ** The resolution passes: outcomes, frame, repetition, and the guards *)

Section PassProperties.
Context `{Iso8601.Static} `{GroundGeometryUpdater.Static} `{ApproximateTerrainHeights.Static}.
Context `{StripeGeometry.Static}.
Context `{GeometryUpdater.Prototype StripeGeometryUpdater.t}.
Context `{DynamicGeometryUpdater.Prototype DynamicStripeGeometryUpdater.t}.




(** Running the resolution again on its own outcome gives that outcome. *)
Lemma resolve_again (s : Spec.Samples) (o : StripeGeometryOptions.t) :
  Spec.rectangle_of_outline ->
  Spec.resolve s (Spec.resolve s o) = Spec.resolve s o.
Proof.
  intros Hrect.
  assert (He : Spec.finalExtrudedHeight s (Spec.resolve s o) = Spec.finalExtrudedHeight s o).
  { unfold Spec.finalExtrudedHeight, Spec.boundingRectangle.
    destruct (Spec.clamped s); [|reflexivity].
    rewrite (Hrect (Spec.populated s (Spec.resolve s o)) (Spec.populated s o));
      [reflexivity|].
    unfold Spec.same_outline. cbn. repeat split. }
  unfold Spec.resolve at 1. rewrite He. destruct o. reflexivity.
Qed.

Lemma set_vertexFormat_resolve
    (s : Spec.Samples) (v : option VertexFormat.t) (o : StripeGeometryOptions.t) :
  StripeGeometryOptions.set_vertexFormat v
    (Spec.resolve s (StripeGeometryOptions.set_vertexFormat v o))
  = Spec.resolve s (StripeGeometryOptions.set_vertexFormat v o).
Proof. destruct o. reflexivity. Qed.

(** X12. Each pass can be repeated: provided the bounding rectangle is
    computed from the outline of the shape alone, running the static pass
    a second time, or the per-tick pass a second time at the same time,
    leaves the options as the first run left them, although the second
    run starts from options that already hold the resolved extrusion. *)
Theorem passes_can_be_repeated :
  forall (entity : Entity.t) (stripe : StripeGraphics.t) (time : JulianDate)
         (static : World StripeGeometryUpdater.t) (dynamic : World DynamicStripeGeometryUpdater.t),
    Spec.rectangle_of_outline ->
    StripeGeometryUpdater._options
      (this (snd (StripeGeometryUpdater._setStaticOptions entity stripe
                    (snd (StripeGeometryUpdater._setStaticOptions entity stripe static)))))
    = StripeGeometryUpdater._options
        (this (snd (StripeGeometryUpdater._setStaticOptions entity stripe static)))
    /\ DynamicStripeGeometryUpdater._options
         (this (snd (DynamicStripeGeometryUpdater._setOptions entity stripe time
                       (snd (DynamicStripeGeometryUpdater._setOptions entity stripe time
                               dynamic)))))
       = DynamicStripeGeometryUpdater._options
           (this (snd (DynamicStripeGeometryUpdater._setOptions entity stripe time dynamic))).
Proof.
  intros entity stripe time static dynamic Hrect. split.
  - destruct (StripeGraphics.positions stripe) as [positions|] eqn:Hp.
    + destruct (StripeGraphics.width stripe) as [width|] eqn:Hw.
      * rewrite !(setStaticOptions_returns entity stripe _ _ _ Hp Hw).
        destruct static as [[e fe sp fp mp ddc top ot o] cs].
        cbn [snd this StripeGeometryUpdater._options StripeGeometryUpdater.set__options
             StripeGeometryUpdater._materialProperty].
        rewrite set_vertexFormat_resolve. apply resolve_again. exact Hrect.
      * destruct (setStaticOptions_without_width entity stripe static _ Hp Hw)
          as (message & ->).
        cbn [snd].
        match goal with
        | |- context [StripeGeometryUpdater._setStaticOptions entity stripe ?w1] =>
            destruct (setStaticOptions_without_width entity stripe w1 _ Hp Hw) as (message' & ->)
        end.
        destruct static as [[e fe sp fp mp ddc top ot o] cs]. destruct o. reflexivity.
    + destruct (setStaticOptions_without_positions entity stripe static Hp) as (message & ->).
      cbn [snd].
      match goal with
      | |- context [StripeGeometryUpdater._setStaticOptions entity stripe ?w1] =>
          destruct (setStaticOptions_without_positions entity stripe w1 Hp) as (message' & ->)
      end.
      destruct static as [[e fe sp fp mp ddc top ot o] cs]. destruct o. reflexivity.
  - rewrite !setOptions_returns.
    destruct dynamic as [[[e fe sp fp mp ddc top ot o]] cs].
    cbn [snd this DynamicStripeGeometryUpdater._options DynamicStripeGeometryUpdater.set__options
         DynamicStripeGeometryUpdater._geometryUpdater
         StripeGeometryUpdater._options StripeGeometryUpdater.set__options].
    apply resolve_again. exact Hrect.
Qed.

(** X13. What the guard establishes: a descriptor that the updater's
    [_isHidden] does not hide has positions and a width, so that the
    members [_isDynamic] and [_setStaticOptions] read of them are read of
    defined properties, and [_isDynamic] returns a boolean; nor is it
    hidden by the base class. *)
Theorem not_hidden_has_positions_and_width :
  forall (this0 : StripeGeometryUpdater.t) (entity : Entity.t) (stripe : StripeGraphics.t),
    StripeGeometryUpdater._isHidden this0 entity stripe = false ->
    (exists positions width,
       StripeGraphics.positions stripe = Some positions
       /\ StripeGraphics.width stripe = Some width)
    /\ (exists dynamic : bool, StripeGeometryUpdater._isDynamic this0 entity stripe = inr dynamic)
    /\ GeometryUpdater._isHidden this0 entity stripe = false.
Proof.
  intros this0 entity stripe Hshown.
  unfold StripeGeometryUpdater._isHidden in Hshown.
  apply orb_false_iff in Hshown. destruct Hshown as (Hshown & Hbase).
  apply orb_false_iff in Hshown. destruct Hshown as (Hp & Hw).
  destruct (StripeGraphics.positions stripe) as [positions|] eqn:Ep; [|discriminate Hp].
  destruct (StripeGraphics.width stripe) as [width|] eqn:Ew; [|discriminate Hw].
  split; [|split].
  - eexists _, _. split; reflexivity.
  - unfold StripeGeometryUpdater._isDynamic. rewrite Ep. cbn. eexists. reflexivity.
  - exact Hbase.
Qed.

(** X14. Not-ready data hides the shape on the per-tick path: once
    [_setOptions] has returned at a time where positions or width sample to
    nothing, the dynamic updater's [_isHidden] is true for every entity,
    descriptor and time it is asked about; when both sample to something,
    [_isHidden] is the base class's answer. *)
Theorem setOptions_then_isHidden :
  forall (entity : Entity.t) (stripe : StripeGraphics.t) (time : JulianDate)
         (w w' : World DynamicStripeGeometryUpdater.t),
    DynamicStripeGeometryUpdater._setOptions entity stripe time w = (inr tt, w') ->
    (Spec.positions (Spec.sampleAt stripe time) = None
     \/ Spec.width (Spec.sampleAt stripe time) = None ->
     forall entity' stripe' time',
       DynamicStripeGeometryUpdater._isHidden (this w') entity' stripe' time' = true)
    /\ (Spec.positions (Spec.sampleAt stripe time) <> None ->
        Spec.width (Spec.sampleAt stripe time) <> None ->
        forall entity' stripe' time',
          DynamicStripeGeometryUpdater._isHidden (this w') entity' stripe' time'
          = DynamicGeometryUpdater._isHidden (this w') entity' stripe' time').
Proof.
  intros entity stripe time w w' Hrun.
  rewrite setOptions_returns in Hrun.
  apply (f_equal snd) in Hrun. cbn [snd] in Hrun. subst w'.
  unfold DynamicStripeGeometryUpdater._isHidden.
  cbn [this DynamicStripeGeometryUpdater._options DynamicStripeGeometryUpdater.set__options
       DynamicStripeGeometryUpdater._geometryUpdater
       StripeGeometryUpdater._options StripeGeometryUpdater.set__options
       Spec.resolve Spec.populated StripeGeometryOptions.set_extrudedHeight
       StripeGeometryOptions.positions StripeGeometryOptions.width].
  split.
  - intros [E|E] entity' stripe' time'; rewrite E; cbn.
    + reflexivity.
    + rewrite orb_true_r. reflexivity.
  - intros Hp Hw entity' stripe' time'.
    destruct (Spec.positions (Spec.sampleAt stripe time)); [|contradiction].
    destruct (Spec.width (Spec.sampleAt stripe time)); [|contradiction].
    reflexivity.
Qed.

(** X15. In every pass, the height handed to the helpers is the sampled
    height itself whenever that is defined or there is no extrusion: the
    default of 0 is applied in no other case than an extrusion without a
    height. *)
Theorem helpers_get_the_sampled_height :
  forall (entity : Entity.t) (stripe : StripeGraphics.t) (time : JulianDate)
         (static : World StripeGeometryUpdater.t) (dynamic : World DynamicStripeGeometryUpdater.t),
    (Spec.height (Spec.sampleAt stripe Iso8601.MINIMUM_VALUE) <> None
     \/ Spec.extrudedHeight (Spec.sampleAt stripe Iso8601.MINIMUM_VALUE) = None ->
     exists consulted,
       calls (snd (StripeGeometryUpdater._setStaticOptions entity stripe static))
       = (consulted ++ calls static)%list
       /\ forall c h,
            In c consulted -> Spec.heightFed c = Some h ->
            h = Spec.height (Spec.sampleAt stripe Iso8601.MINIMUM_VALUE))
    /\ (Spec.height (Spec.sampleAt stripe time) <> None
        \/ Spec.extrudedHeight (Spec.sampleAt stripe time) = None ->
        exists consulted,
          calls (snd (DynamicStripeGeometryUpdater._setOptions entity stripe time dynamic))
          = (consulted ++ calls dynamic)%list
          /\ consulted <> []
          /\ forall c h,
               In c consulted -> Spec.heightFed c = Some h ->
               h = Spec.height (Spec.sampleAt stripe time)).
Proof.
  assert (Hbase : forall s : Spec.Samples,
            Spec.height s <> None \/ Spec.extrudedHeight s = None ->
            Spec.baseHeight s = Spec.height s).
  { intros s [E|E]; unfold Spec.baseHeight.
    - destruct (Spec.extrudedHeight s), (Spec.height s); try reflexivity. contradiction.
    - rewrite E. reflexivity. }
  intros entity stripe time static dynamic. split.
  - intros Hs.
    destruct (StripeGraphics.positions stripe) as [positions|] eqn:Hp.
    + destruct (StripeGraphics.width stripe) as [width|] eqn:Hw.
      * rewrite (setStaticOptions_returns entity stripe static _ _ Hp Hw).
        eexists. split; [reflexivity|].
        intros c h Hin Hfed. rewrite (consulted_heightFed _ _ _ _ Hin Hfed). now apply Hbase.
      * destruct (setStaticOptions_without_width entity stripe static _ Hp Hw)
          as (message & ->).
        exists []. split; [reflexivity|]. intros c h [].
    + destruct (setStaticOptions_without_positions entity stripe static Hp) as (message & ->).
      exists []. split; [reflexivity|]. intros c h [].
  - intros Hs. rewrite setOptions_returns.
    eexists. split; [reflexivity|]. split.
    + unfold Spec.consulted. destruct (Spec.clamped _); discriminate.
    + intros c h Hin Hfed. rewrite (consulted_heightFed _ _ _ _ Hin Hfed). now apply Hbase.
Qed.

End PassProperties.

(** ** _isDynamic and _computeCenter: what they depend on *)

Section Dependencies.
Import StripeGeometryUpdater.

(** X16. [_isDynamic] looks at eight properties of the descriptor and at
    the updater, and at nothing else: two descriptors that agree on
    positions, height, extrudedHeight, granularity, width, outlineWidth,
    cornerType and zIndex get the same answer (or the same error) from the
    same updater, whatever their height references, show, fill, material,
    outline, shadows, distance display condition and classification type
    are, and whatever entity is passed.  A height reference that varies
    over time therefore never makes a stripe dynamic. *)
Theorem isDynamic_depends_on_eight_properties :
  forall (this : t) (entity entity' : Entity.t) (stripe stripe' : StripeGraphics.t),
    StripeGraphics.positions stripe = StripeGraphics.positions stripe' ->
    StripeGraphics.height stripe = StripeGraphics.height stripe' ->
    StripeGraphics.extrudedHeight stripe = StripeGraphics.extrudedHeight stripe' ->
    StripeGraphics.granularity stripe = StripeGraphics.granularity stripe' ->
    StripeGraphics.width stripe = StripeGraphics.width stripe' ->
    StripeGraphics.outlineWidth stripe = StripeGraphics.outlineWidth stripe' ->
    StripeGraphics.cornerType stripe = StripeGraphics.cornerType stripe' ->
    StripeGraphics.zIndex stripe = StripeGraphics.zIndex stripe' ->
    _isDynamic this entity stripe = _isDynamic this entity' stripe'.
Proof.
  intros this entity entity' stripe stripe' Ep Eh Ee Eg Ew Eo Ec Ez.
  unfold _isDynamic. rewrite Ep, Eh, Ee, Eg, Ew, Eo, Ec, Ez. reflexivity.
Qed.

(** X17. [_computeCenter] throws a [TypeError] for an entity without a
    stripe; every point it returns for an entity with a stripe is one of
    the positions sampled at the time: it never computes a new point. *)
Theorem computeCenter_returns_a_sampled_position :
  forall (this : t) (time : JulianDate) (result : option Cartesian3.t),
    (Entity.stripe (_entity this) = None ->
     exists message, _computeCenter this time result = inl (TypeError message))
    /\ (forall stripe point,
          Entity.stripe (_entity this) = Some stripe ->
          _computeCenter this time result = inr (Some point) ->
          exists positions,
            Property.getValueOrUndefined (StripeGraphics.positions stripe) time
            = Some positions
            /\ In point positions).
Proof.
  intros this time result. unfold _computeCenter. split.
  - intros ->. cbn. eexists. reflexivity.
  - intros stripe point ->. unfold member, completion_bind. cbv beta iota.
    destruct (Property.getValueOrUndefined (StripeGraphics.positions stripe) time)
      as [positions|]; [|discriminate].
    destruct (Nat.eqb (List.length positions) 0); [discriminate|].
    intros E. exists positions. split; [reflexivity|].
    destruct (nth_error positions (List.length positions / 2)) as [middle|] eqn:Hnth;
      [|discriminate E].
    apply nth_error_In in Hnth. cbn in E.
    apply (f_equal (fun c => match c with inr (Some p) => p | _ => point end)) in E.
    subst point. destruct middle. exact Hnth.
Qed.

End Dependencies.

(** * The build script: two helpers on strings

    [escapeCharacters] and [filePathToModuleId] of the build script.  A
    JavaScript string is a sequence of UTF-16 code units; the operations of
    [String.prototype] that the helpers use are written out on lists of
    code units. *)

Module Build.
Local Open Scope list_scope.

Definition codeUnit : Set := nat.

Definition jsstring : Set := list codeUnit.

(** A JavaScript string literal of ASCII characters. *)
Definition literal (s : string) : jsstring := List.map nat_of_ascii (list_ascii_of_string s).

Definition backslash : codeUnit := 92.
Definition slash : codeUnit := 47.
Definition dot : codeUnit := 46.

(** [s.lastIndexOf(c)] for a one-character [c]: the index of the last
    occurrence, or -1. *)
Fixpoint lastIndexOf_from (c : codeUnit) (s : jsstring) (index found : Z) : Z :=
  match s with
  | [] => found
  | d :: rest => lastIndexOf_from c rest (index + 1) (if Nat.eqb d c then index else found)
  end.

Definition lastIndexOf (s : jsstring) (c : codeUnit) : Z := lastIndexOf_from c s 0 (-1).

(** [s.substring(start, end)]: both indices are clamped to [0, length], and
    swapped if [start] is the greater. *)
Definition substring (s : jsstring) (indexStart indexEnd : Z) : jsstring :=
  let clamp (i : Z) : nat := Z.to_nat (Z.min (Z.max i 0) (Z.of_nat (List.length s))) in
  let from := Nat.min (clamp indexStart) (clamp indexEnd) in
  let to := Nat.max (clamp indexStart) (clamp indexEnd) in
  firstn (to - from) (skipn from s).

(** [s.replace(/c/g, d)] for one-character [c] and [d]. *)
Definition replace_each (c d : codeUnit) (s : jsstring) : jsstring :=
  List.map (fun u => if Nat.eqb u c then d else u) s.

(** The class [[\-\[\]\/\{\}\(\)\*\+\?\.\\\^\$\|]] of [escapeCharacters]. *)
Definition special (u : codeUnit) : bool :=
  existsb (Nat.eqb u) (literal "-[]/{}()*+?.\^$|").

(** [token.replace(/[...]/g, "\\$&")]: every code unit of the class is
    replaced by a backslash and itself. *)
Definition escapeCharacters (token : jsstring) : jsstring :=
  flat_map (fun u => if special u then [backslash; u] else [u]) token.

Definition filePathToModuleId (moduleId : jsstring) : jsstring :=
  replace_each backslash slash (substring moduleId 0 (lastIndexOf moduleId dot)).

Lemma lastIndexOf_from_absent (c : codeUnit) (s : jsstring) (index found : Z) :
  ~ In c s -> lastIndexOf_from c s index found = found.
Proof.
  revert index found. induction s as [|d rest IH]; intros index found Hnot; [reflexivity|].
  cbn [lastIndexOf_from].
  destruct (Nat.eqb_spec d c) as [->|Hne].
  - exfalso. apply Hnot. left. reflexivity.
  - apply IH. intros Hin. apply Hnot. right. exact Hin.
Qed.

Lemma lastIndexOf_from_app (c : codeUnit) (a b : jsstring) (index found : Z) :
  lastIndexOf_from c (a ++ b) index found
  = lastIndexOf_from c b (index + Z.of_nat (List.length a)) (lastIndexOf_from c a index found).
Proof.
  revert index found. induction a as [|d rest IH]; intros index found.
  - cbn. f_equal. lia.
  - cbn [app lastIndexOf_from List.length]. rewrite IH. f_equal. lia.
Qed.

Lemma lastIndexOf_last (c : codeUnit) (before after : jsstring) :
  ~ In c after -> lastIndexOf (before ++ c :: after) c = Z.of_nat (List.length before).
Proof.
  intros Hnot. unfold lastIndexOf. rewrite lastIndexOf_from_app.
  cbn [lastIndexOf_from]. rewrite Nat.eqb_refl.
  rewrite lastIndexOf_from_absent by exact Hnot. lia.
Qed.

Lemma substring_prefix (before after : jsstring) :
  substring (before ++ after) 0 (Z.of_nat (List.length before)) = before.
Proof.
  unfold substring. rewrite length_app.
  replace (Z.to_nat (Z.min (Z.max 0 0) (Z.of_nat (List.length before + List.length after))))
    with 0 by lia.
  replace (Z.to_nat (Z.min (Z.max (Z.of_nat (List.length before)) 0)
                       (Z.of_nat (List.length before + List.length after))))
    with (List.length before) by lia.
  rewrite Nat.min_0_l, Nat.max_0_l, Nat.sub_0_r. cbn [skipn].
  rewrite firstn_app, firstn_all, Nat.sub_diag. cbn. apply app_nil_r.
Qed.

Lemma substring_to_negative (s : jsstring) : substring s 0 (-1) = [].
Proof.
  unfold substring.
  replace (Z.to_nat (Z.min (Z.max 0 0) (Z.of_nat (List.length s)))) with 0 by lia.
  replace (Z.to_nat (Z.min (Z.max (-1) 0) (Z.of_nat (List.length s)))) with 0 by lia.
  reflexivity.
Qed.

(** X18. [filePathToModuleId] cuts the path at its last dot and turns every
    backslash of what is left into a slash.  A path with no dot at all
    gives the empty string ([lastIndexOf] is -1, which [substring] clamps
    to 0), not the path itself.  The result never holds a backslash. *)
Theorem filePathToModuleId_cuts_at_the_last_dot :
  forall path : jsstring,
    (forall stem extension,
       path = (stem ++ dot :: extension)%list -> ~ In dot extension ->
       filePathToModuleId path = replace_each backslash slash stem)
    /\ (~ In dot path -> filePathToModuleId path = [])
    /\ ~ In backslash (filePathToModuleId path).
Proof.
  intros path. split; [|split].
  - intros stem extension -> Hnot. unfold filePathToModuleId.
    rewrite lastIndexOf_last by exact Hnot. rewrite substring_prefix. reflexivity.
  - intros Hnot. unfold filePathToModuleId, lastIndexOf.
    rewrite lastIndexOf_from_absent by exact Hnot. rewrite substring_to_negative. reflexivity.
  - unfold filePathToModuleId, replace_each. intros Hin.
    apply in_map_iff in Hin. destruct Hin as (u & Hu & _).
    destruct (Nat.eqb u backslash) eqn:Eu; [discriminate Hu|].
    apply Nat.eqb_neq in Eu. apply Eu. exact Hu.
Qed.

Lemma escapeCharacters_cons (u : codeUnit) (rest : jsstring) :
  escapeCharacters (u :: rest)
  = ((if special u then [backslash; u] else [u]) ++ escapeCharacters rest)%list.
Proof. reflexivity. Qed.

(** X19. [escapeCharacters] loses nothing: two tokens with the same escaped
    form are the same token.  (The backslash is itself in the class, so an
    escaped token can be read back without ambiguity.) *)
Theorem escapeCharacters_is_injective :
  forall a b : jsstring, escapeCharacters a = escapeCharacters b -> a = b.
Proof.
  assert (Hspecial : special backslash = true) by reflexivity.
  induction a as [|u a IH]; intros [|v b] E.
  - reflexivity.
  - rewrite escapeCharacters_cons in E. destruct (special v); discriminate E.
  - rewrite escapeCharacters_cons in E. destruct (special u); discriminate E.
  - rewrite !escapeCharacters_cons in E.
    destruct (special u) eqn:Hu, (special v) eqn:Hv; cbn [app] in E.
    + injection E as Euv E. subst v. f_equal. now apply IH.
    + injection E as Ev E. rewrite <- Ev, Hspecial in Hv. discriminate Hv.
    + injection E as Eu E. rewrite Eu, Hspecial in Hu. discriminate Hu.
    + injection E as Euv E. subst v. f_equal. now apply IH.
Qed.

(** X20. The escaped token is the token with one backslash added for each
    code unit of the class: its length is the token's length plus the
    number of such code units, and a token with none of them is returned
    as it is. *)
Theorem escapeCharacters_adds_one_backslash_each :
  forall token : jsstring,
    List.length (escapeCharacters token)
    = List.length token + List.length (filter special token)
    /\ (filter special token = [] -> escapeCharacters token = token).
Proof.
  induction token as [|u token (IHlength & IHsame)].
  - split; reflexivity.
  - rewrite escapeCharacters_cons. cbn [filter]. destruct (special u); cbn [app List.length].
    + split; [rewrite IHlength; lia | discriminate].
    + split; [rewrite IHlength; lia | intros E; rewrite (IHsame E); reflexivity].
Qed.

End Build.

(** ** Further runs on concrete inputs *)

Module Sample.
Definition red : Color.t :=
  {| Color.red := 1%float; Color.green := 0%float; Color.blue := 0%float; Color.alpha := 1%float |}.

(** A color material whose color varies over time and samples to red. *)
Definition fading : MaterialProperty.t :=
  {| MaterialProperty.isConstant := false;
     MaterialProperty.instanceof_ColorMaterialProperty := true;
     MaterialProperty.color := Some {| isConstant := false; getValue := fun _ => Some red |} |}.

(** A stripe raised above the ground: its height and its extrusion are
    both relative to it. *)
Definition raised : StripeGraphics.t :=
  StripeGraphics.set_extrudedHeightReference
    (Some (Example.constant HeightReference.RELATIVE_TO_GROUND))
    (StripeGraphics.set_heightReference
       (Some (Example.constant HeightReference.RELATIVE_TO_GROUND))
       (StripeGraphics.set_extrudedHeight (Some (Example.constant 30%float)) Example.flat)).

(** An entity that is showing, and that was available up to day 100. *)
Definition absent : Entity.t :=
  {| Entity.isShowing := true;
     Entity.isAvailable := fun time => PrimFloat.ltb (dayNumber time) 100%float;
     Entity.stripe := Some raised |}.

(** Its updater, with a fading material and no terrain offset property,
    before any pass has run. *)
Definition fresh : StripeGeometryUpdater.t :=
  {| StripeGeometryUpdater._entity := absent;
     StripeGeometryUpdater._fillEnabled := true;
     StripeGeometryUpdater._showProperty := Some (Example.constant true);
     StripeGeometryUpdater._fillProperty := Some (Example.constant true);
     StripeGeometryUpdater._materialProperty := Some fading;
     StripeGeometryUpdater._distanceDisplayConditionProperty :=
       Some (Example.constant Example.everywhere);
     StripeGeometryUpdater._terrainOffsetProperty := None;
     StripeGeometryUpdater._onTerrain := false;
     StripeGeometryUpdater._options := StripeGeometryOptions.new absent |}.

(** The options the static pass leaves for it: all the vertices are to be
    offset. *)
Definition lifted : StripeGeometryOptions.t :=
  {| StripeGeometryOptions.id := absent;
     StripeGeometryOptions.vertexFormat :=
       Some VertexFormat.PerInstanceColorAppearance_VERTEX_FORMAT;
     StripeGeometryOptions.positions := Some Example.centerline;
     StripeGeometryOptions.width := Some 2%float;
     StripeGeometryOptions.cornerType := None;
     StripeGeometryOptions.height := JNumber 0%float;
     StripeGeometryOptions.extrudedHeight := JNumber 30%float;
     StripeGeometryOptions.granularity := None;
     StripeGeometryOptions.offsetAttribute := Some GeometryOffsetAttribute.ALL |}.

Definition away : StripeGeometryUpdater.t := StripeGeometryUpdater.set__options lifted fresh.

(** A flat stripe whose height reference changes on day 100. *)
Definition rereferenced : StripeGraphics.t :=
  StripeGraphics.set_heightReference
    (Some (Example.stepping HeightReference.NONE HeightReference.RELATIVE_TO_GROUND))
    Example.flat.
End Sample.

Section MoreRuns.
#[local] Existing Instance Example.iso8601.
#[local] Existing Instance Example.ground.
#[local] Existing Instance Example.terrain.
#[local] Existing Instance Example.geometry.
#[local] Existing Instance Example.base.
#[local] Existing Instance Example.dynamicBase.
#[local] Existing Instance Example.construction.
#[local] Existing Instance Example.distance.

(** The static pass on [Sample.raised] leaves the options [Sample.lifted]. *)
Example setStaticOptions_raised_lifted :
  this (snd (StripeGeometryUpdater._setStaticOptions Sample.absent Sample.raised
               (Example.world Sample.fresh)))
  = Sample.away.
Proof. vm_compute. reflexivity. Qed.

(** The entity being unavailable at noon, the varying color is not sampled:
    the instance is white, not red. *)
Lemma createFillGeometryInstance_color_witness :
  exists instance,
    StripeGeometryUpdater.createFillGeometryInstance (Some Example.noon)
      (Example.world Sample.away)
    = (inr instance, Example.world Sample.away)
    /\ GeometryInstance.color (GeometryInstance.attributes instance)
       = Some (ColorGeometryInstanceAttribute.fromColor Color.WHITE).
Proof.
  eexists. split; [reflexivity|].
  match goal with
  | |- context [GeometryInstance.attributes ?instance] =>
      assert (Hrun : StripeGeometryUpdater.createFillGeometryInstance (Some Example.noon)
                       (Example.world Sample.away)
                     = (inr instance, Example.world Sample.away)) by reflexivity;
      destruct (createFillGeometryInstance_color (Some Example.noon)
                  (Example.world Sample.away) (Example.world Sample.away) instance Hrun)
        as (t0 & Etime & _ & Hcolor)
  end.
  assert (t0 = Example.noon) as ->
    by exact (f_equal (fun o => match o with Some t => t | None => Example.noon end)
                (eq_sym Etime)).
  destruct (Hcolor Sample.fading eq_refl eq_refl) as (c & Ec & _ & _ & _ & Hwhite).
  rewrite Ec. f_equal. f_equal.
  exact (Hwhite _ eq_refl eq_refl eq_refl).
Defined.

(** With an offset attribute in the options and no terrain offset
    property, the instance is offset by the zero vector. *)
Lemma createFillGeometryInstance_offset_witness :
  exists instance,
    StripeGeometryUpdater.createFillGeometryInstance (Some Example.noon)
      (Example.world Sample.away)
    = (inr instance, Example.world Sample.away)
    /\ GeometryInstance.offset (GeometryInstance.attributes instance)
       = Some (OffsetGeometryInstanceAttribute.fromCartesian3 Cartesian3.ZERO).
Proof.
  eexists. split; [reflexivity|].
  match goal with
  | |- context [GeometryInstance.attributes ?instance] =>
      assert (Hrun : StripeGeometryUpdater.createFillGeometryInstance (Some Example.noon)
                       (Example.world Sample.away)
                     = (inr instance, Example.world Sample.away)) by reflexivity;
      destruct (createFillGeometryInstance_offset (Some Example.noon)
                  (Example.world Sample.away) (Example.world Sample.away) instance Hrun)
        as (t0 & _ & _ & _ & _ & Hoffset)
  end.
  destruct (Hoffset GeometryOffsetAttribute.ALL eq_refl) as (v & Ev & Hzero & _).
  rewrite Ev. f_equal. f_equal. exact (Hzero eq_refl).
Defined.

(** The instance of [Example.ready] carries the condition its property
    samples to. *)
Lemma createFillGeometryInstance_returns_only_if_witness :
  exists instance,
    StripeGeometryUpdater.createFillGeometryInstance (Some Example.noon)
      (Example.world Example.ready)
    = (inr instance, Example.world Example.ready)
    /\ GeometryInstance.distanceDisplayCondition (GeometryInstance.attributes instance)
       = DistanceDisplayConditionGeometryInstanceAttribute.attribute Example.everywhere.
Proof.
  eexists. split; [reflexivity|].
  match goal with
  | |- context [GeometryInstance.attributes ?instance] =>
      assert (Hrun : StripeGeometryUpdater.createFillGeometryInstance (Some Example.noon)
                       (Example.world Example.ready)
                     = (inr instance, Example.world Example.ready)) by reflexivity;
      destruct (createFillGeometryInstance_returns_only_if (Some Example.noon)
                  (Example.world Example.ready) (Example.world Example.ready) instance Hrun)
        as (t0 & property & condition & Etime & _ & Eproperty & Econdition & Eattribute & _)
  end.
  rewrite Eattribute. f_equal.
  assert (Esample : getValue (Example.constant Example.everywhere) t0 = Some condition).
  { rewrite <- Econdition. f_equal.
    exact (f_equal (fun p => match p with Some p => p | None => property end) Eproperty). }
  exact (f_equal (fun c => match c with Some c => c | None => condition end) (eq_sym Esample)).
Defined.

Lemma passes_can_be_repeated_witness :
  Spec.rectangle_of_outline
  /\ StripeGeometryUpdater._options
       (this (snd (StripeGeometryUpdater._setStaticOptions
                     (Example.entity (Some Example.clamped)) Example.clamped
                     (snd (StripeGeometryUpdater._setStaticOptions
                             (Example.entity (Some Example.clamped)) Example.clamped
                             (Example.world (Example.updater Example.clamped true)))))))
     = StripeGeometryUpdater._options
         (this (snd (StripeGeometryUpdater._setStaticOptions
                       (Example.entity (Some Example.clamped)) Example.clamped
                       (Example.world (Example.updater Example.clamped true))))).
Proof.
  split; [exact example_rectangle_of_outline|].
  exact (proj1 (passes_can_be_repeated
                  (Example.entity (Some Example.clamped)) Example.clamped Example.noon
                  (Example.world (Example.updater Example.clamped true))
                  (Example.world (Example.dynamicUpdater Example.clamped))
                  example_rectangle_of_outline)).
Defined.

Lemma not_hidden_has_positions_and_width_witness :
  StripeGeometryUpdater._isHidden (Example.updater Example.flat true)
    (Example.entity (Some Example.flat)) Example.flat
  = false
  /\ exists dynamic : bool,
       StripeGeometryUpdater._isDynamic (Example.updater Example.flat true)
         (Example.entity (Some Example.flat)) Example.flat
       = inr dynamic.
Proof.
  split; [reflexivity|].
  exact (proj1 (proj2 (not_hidden_has_positions_and_width (Example.updater Example.flat true)
                         (Example.entity (Some Example.flat)) Example.flat eq_refl))).
Defined.


(** After the per-tick pass on a descriptor without a centerline, the
    dynamic updater hides the shape. *)
Lemma setOptions_then_isHidden_witness :
  exists w',
    DynamicStripeGeometryUpdater._setOptions (Example.entity (Some Example.no_centerline))
      Example.no_centerline Example.noon
      (Example.world (Example.dynamicUpdater Example.no_centerline))
    = (inr tt, w')
    /\ DynamicStripeGeometryUpdater._isHidden (this w')
         (Example.entity (Some Example.no_centerline)) Example.no_centerline Example.noon
       = true.
Proof.
  eexists. split; [reflexivity|].
  exact (proj1 (setOptions_then_isHidden
                  (Example.entity (Some Example.no_centerline)) Example.no_centerline
                  Example.noon
                  (Example.world (Example.dynamicUpdater Example.no_centerline)) _ eq_refl)
           (or_introl eq_refl)
           (Example.entity (Some Example.no_centerline)) Example.no_centerline Example.noon).
Defined.

(** A stripe whose height reference changes on day 100 is as static as the
    flat stripe it was made from. *)
Lemma isDynamic_depends_on_eight_properties_witness :
  StripeGeometryUpdater._isDynamic (Example.updater Sample.rereferenced true)
    (Example.entity (Some Sample.rereferenced)) Sample.rereferenced
  = inr false.
Proof.
  rewrite (isDynamic_depends_on_eight_properties (Example.updater Sample.rereferenced true)
             (Example.entity (Some Sample.rereferenced)) (Example.entity (Some Example.flat))
             Sample.rereferenced Example.flat
             eq_refl eq_refl eq_refl eq_refl eq_refl eq_refl eq_refl eq_refl).
  reflexivity.
Defined.

(** The static pass of that stripe resolves no offset; a per-tick pass
    after day 100 would resolve one. *)
Example rereferenced_resolves_differently :
  StripeGeometryOptions.offsetAttribute
    (StripeGeometryUpdater._options
       (this (snd (StripeGeometryUpdater._setStaticOptions
                     (Example.entity (Some Sample.rereferenced)) Sample.rereferenced
                     (Example.world (Example.updater Sample.rereferenced true))))))
  = None
  /\ StripeGeometryOptions.offsetAttribute
       (DynamicStripeGeometryUpdater._options
          (this (snd (DynamicStripeGeometryUpdater._setOptions
                        (Example.entity (Some Sample.rereferenced)) Sample.rereferenced
                        Example.noon
                        (Example.world (Example.dynamicUpdater Sample.rereferenced))))))
     = Some GeometryOffsetAttribute.TOP.
Proof. split; reflexivity. Qed.

Example filePathToModuleId_runs :
  Build.filePathToModuleId (Build.literal "Source\Core\Stripe.Geometry.js")
  = Build.literal "Source/Core/Stripe.Geometry"
  /\ Build.filePathToModuleId (Build.literal "Source\README") = [].
Proof. split; reflexivity. Qed.

Lemma filePathToModuleId_witness :
  Build.filePathToModuleId (Build.literal "Source\Core\Stripe.Geometry.js")
  = Build.literal "Source/Core/Stripe.Geometry".
Proof.
  exact (proj1 (Build.filePathToModuleId_cuts_at_the_last_dot
                  (Build.literal "Source\Core\Stripe.Geometry.js"))
           (Build.literal "Source\Core\Stripe.Geometry") (Build.literal "js") eq_refl
           ltac:(vm_compute; intuition discriminate)).
Defined.

Example escapeCharacters_debug :
  Build.escapeCharacters (Build.literal "debug.v1") = Build.literal "debug\.v1".
Proof. reflexivity. Qed.

Lemma escapeCharacters_witness :
  Build.escapeCharacters (Build.literal "a.b") <> Build.escapeCharacters (Build.literal "a-b").
Proof.
  intros E. apply Build.escapeCharacters_is_injective in E. discriminate E.
Defined.

End MoreRuns.
